(** * X32 stompbox: widget event engine

    A shallow embedding of [src/src/x32stompbox.cpp]: the button state
    machine and the dispatch of [taskButtonsLoop], the SysEx builder
    [midiBuildCommand], the inbound reconciliation of [taskUDPLoop] and the
    renewal cycle of [taskPokeOSCLoop].

    Conventions.
    - [unsigned long] is a [Z] in [0, 2^32) and its subtraction wraps.
    - [int] is a [Z]; [float] is an IEEE-754 binary32 value and [double] a
      binary64 value, both as [spec_float] with the operations of the
      Standard Library's [SpecFloat] at the matching precision.
    - [char*] is a [string] holding the bytes before the terminating NUL;
      a [char] array is a [string] holding all the bytes of the array.
    - Every call that leaves the task (UDP, SysEx, GPIO, FreeRTOS, Serial) is
      recorded, in program order, in a list of [Effect]s. *)

From Stdlib Require Import ZArith List String Ascii Bool Lia.
From Stdlib Require Import SpecFloat DecimalString QArith Qround.
Import ListNotations.

Local Open Scope string_scope.
Local Open Scope list_scope.
Local Open Scope Z_scope.

(** ** Constants of the sketch *)

Definition action_NOTHING : Z := -1.
Definition action_PRESS : Z := 1.
Definition action_LONG_PRESS : Z := 2.
Definition LONG_PRESS_DURATION : Z := 3000.

(** [LOW] and [HIGH] of the Arduino core; the LED is wired as a sink
    ([#if true] branch). *)
Inductive PinLevel : Type := LOW | HIGH.
Definition LED_PIN_ON : PinLevel := LOW.
Definition LED_PIN_OFF : PinLevel := HIGH.

(** [unsigned long] arithmetic. *)
Definition ulong_modulus : Z := 2 ^ 32.
Definition ulong_sub (a b : Z) : Z := (a - b) mod ulong_modulus.

(** ** binary32 and binary64 *)

Definition float32 : Type := spec_float.
Definition float64 : Type := spec_float.

Definition f32_of_int (n : Z) : float32 := binary_normalize 24 128 n 0 false.
Definition f32_mul : float32 -> float32 -> float32 := SFmul 24 128.
Definition f64_add : float64 -> float64 -> float64 := SFadd 53 1024.

(** The float-to-double promotion: every binary32 value is a binary64 value;
    only the mantissa is re-aligned. *)
Definition f64_of_f32 (x : float32) : float64 :=
  match x with
  | S754_finite s m e => binary_round 53 1024 s m e
  | _ => x
  end.

(** The double literal [0.5]. *)
Definition f64_half : float64 := S754_finite false 4503599627370496 (-53).

(** [x >= 0] on floats: false on NaN. *)
Definition f32_ge0 (x : float32) : bool := SFleb (S754_zero false) x.

(** [(int) x] on a double: truncation toward zero; undefined (here [None])
    on NaN, on the infinities and outside the range of [int]. *)
Definition int_of_f64 (x : float64) : option Z :=
  match x with
  | S754_zero _ => Some 0
  | S754_finite s m e =>
      let a := match e with
               | Zneg k => Z.shiftr (Zpos m) (Zpos k)
               | _ => Z.shiftl (Zpos m) e
               end in
      let v := cond_Zopp s a in
      if (- 2 ^ 31 <=? v) && (v <? 2 ^ 31) then Some v else None
  | _ => None
  end.

(** ** The widget *)

Record OSCWidget : Type := mkWidget {
  friendlyDebugName : string;
  buttonPin : Z;
  ledPin : Z;
  actionTrigger : Z;
  pressedMillis : Z;
  wasPressed : bool;
  isOscToggle : bool;
  isReverseLed : bool;
  oscAddress : string;
  oscPayload_s : string;
  oscState : Z;
  oscPayload_i : Z;
  oscPayload_f : float32
}.

(** The constructor: [oscState(0)], [wasPressed(false)]; [pressedMillis] is
    not initialised by the constructor and the widgets are globals, hence
    zero. The pins are passed as [int] and kept as [uint8_t]: the conversion
    reduces them modulo 256. *)
Definition newWidget (name : string) (bpin lpin trigger : Z)
    (toggle reverse : bool) (addr payload : string) (idx : Z) (f : float32)
    : OSCWidget :=
  mkWidget name (bpin mod 256) (lpin mod 256) trigger 0 false toggle reverse
    addr payload 0 idx f.

(** The default of [theOscPayload_f], and the floats of the examples: 1.0,
    0.75 (3 * 2^22 * 2^-24) and the binary32 value nearest to [0.5 / 127]
    (8454660 * 2^-31). *)
Definition f32_minus_one : float32 := f32_of_int (-1).
Definition f32_one : float32 := f32_of_int 1.
Definition f32_three_quarters : float32 := S754_finite false 12582912 (-24).
Definition f32_near_tie : float32 := S754_finite false 8454660 (-31).

Definition set_press (t : Z) (w : OSCWidget) : OSCWidget :=
  mkWidget (friendlyDebugName w) (buttonPin w) (ledPin w) (actionTrigger w)
    t true (isOscToggle w) (isReverseLed w) (oscAddress w)
    (oscPayload_s w) (oscState w) (oscPayload_i w) (oscPayload_f w).

Definition clear_wasPressed (w : OSCWidget) : OSCWidget :=
  mkWidget (friendlyDebugName w) (buttonPin w) (ledPin w) (actionTrigger w)
    (pressedMillis w) false (isOscToggle w) (isReverseLed w) (oscAddress w)
    (oscPayload_s w) (oscState w) (oscPayload_i w) (oscPayload_f w).

Definition set_oscState (s : Z) (w : OSCWidget) : OSCWidget :=
  mkWidget (friendlyDebugName w) (buttonPin w) (ledPin w) (actionTrigger w)
    (pressedMillis w) (wasPressed w) (isOscToggle w) (isReverseLed w)
    (oscAddress w) (oscPayload_s w) s (oscPayload_i w) (oscPayload_f w).

Definition set_oscPayload_s (p : string) (w : OSCWidget) : OSCWidget :=
  mkWidget (friendlyDebugName w) (buttonPin w) (ledPin w) (actionTrigger w)
    (pressedMillis w) (wasPressed w) (isOscToggle w) (isReverseLed w)
    (oscAddress w) p (oscState w) (oscPayload_i w) (oscPayload_f w).

(** The widgets configured in the sketch, and [myWidgets]. *)
Definition widget_Bttn_A_long : OSCWidget :=
  newWidget "Bttn A__" 12 13 action_LONG_PRESS false false "/load" "snippet" 99 f32_minus_one.
Definition widget_Button_A : OSCWidget :=
  newWidget "Button A" 12 13 action_PRESS false false "/load" "snippet" 13 f32_minus_one.
Definition widget_Button_B : OSCWidget :=
  newWidget "Button B" 14 15 action_PRESS false false "/load" "snippet" 15 f32_minus_one.
Definition widget_Button_C : OSCWidget :=
  newWidget "Button C" 27 2 action_PRESS false false "/load" "snippet" 12 f32_minus_one.
Definition widget_Button_D : OSCWidget :=
  newWidget "Button D" 26 0 action_PRESS false false "/load" "snippet" 11 f32_minus_one.
Definition widget_Button_E : OSCWidget :=
  newWidget "Button E" 25 4 action_PRESS true true "/dca/5/on" "" (-1) f32_minus_one.
Definition widget_Button_F : OSCWidget :=
  newWidget "Button F" 33 5 action_PRESS true false "/config/mute/6" "" (-1) f32_minus_one.

Definition myWidgets : list OSCWidget :=
  [ widget_Bttn_A_long; widget_Button_A; widget_Button_B; widget_Button_C;
    widget_Button_D; widget_Button_E; widget_Button_F ].

(** An inbound datagram for an address no widget has: the OSC encoding of
    [/ch/01/mix/fader ,f 1.0]. *)
Definition NUL : string := String "000" EmptyString.
Definition datagram_other_fader : string :=
  ("/ch/01/mix/fader" ++ NUL ++ NUL ++ NUL ++ NUL ++ ",f" ++ NUL ++ NUL
   ++ String "063" (String "128" (NUL ++ NUL)))%string.

(** "Button F" once switched on. *)
Definition Button_F_on : OSCWidget :=
  set_oscPayload_s "ON" (set_oscState 1 widget_Button_F).

(** The fader of the commented example line of the sketch:
    [OSCWidget("Example", 35, 23, action_NOTHING, false, false,
    "/ch/02/mix/09/level", "", -1, 0.75)], here with the short press as its
    trigger. *)
Definition widget_Example_fader : OSCWidget :=
  newWidget "Example" 35 23 action_PRESS false false "/ch/02/mix/09/level" ""
    (-1) f32_three_quarters.

(** ** The button, as the sketch sees it

    [Button] is the debouncing library: one poll yields what [toggled()]
    returned and what [read()] returns after it. *)
Inductive ButtonState : Type := PRESSED | RELEASED.

Record ButtonPoll : Type := mkPoll {
  toggled : bool;
  read : ButtonState;
  millis : Z
}.

Definition press_edge (t : Z) : ButtonPoll := mkPoll true PRESSED t.
Definition release_edge (t : Z) : ButtonPoll := mkPoll true RELEASED t.
(** A poll with no edge while the button is down. *)
Definition held (t : Z) : ButtonPoll := mkPoll false PRESSED t.
(** A poll with no edge while the button is up. *)
Definition idle (t : Z) : ButtonPoll := mkPoll false RELEASED t.

(** ** Input state machine: "how was the button pressed?" *)

Definition buttonAction (p : ButtonPoll) (w : OSCWidget) : OSCWidget * Z :=
  if toggled p then
    match read p with
    | PRESSED => (set_press (millis p) w, action_PRESS)
    | RELEASED => (clear_wasPressed w, action_NOTHING)
    end
  else if wasPressed w
          && (LONG_PRESS_DURATION <? ulong_sub (millis p) (pressedMillis w))
  then (clear_wasPressed w, action_LONG_PRESS)
  else (w, action_NOTHING).

(** The guard of the dispatch:
    [action == theWidget.actionTrigger && action != action_NOTHING]. *)
Definition qualifies (action : Z) (w : OSCWidget) : bool :=
  (action =? actionTrigger w) && negb (action =? action_NOTHING).

(** The action a poll dispatches for the widget, if any. *)
Definition firedAction (p : ButtonPoll) (w : OSCWidget) : option Z :=
  let '(w', a) := buttonAction p w in
  if qualifies a w' then Some a else None.

(** ** OSC messages and the effects of the tasks *)

(** One OSC argument. [OscOther] stands for the remaining OSC types (blob,
    double, boolean, ...), which the sketch never inspects. *)
Inductive OSCData : Type :=
| OscInt (i : Z)
| OscFloat (f : float32)
| OscString (s : string)
| OscOther.

Record OSCMessage : Type := mkMsg {
  msgAddress : string;
  msgArgs : list OSCData
}.

Definition isInt (k : nat) (m : OSCMessage) : bool :=
  match nth_error (msgArgs m) k with Some (OscInt _) => true | _ => false end.
Definition isFloat (k : nat) (m : OSCMessage) : bool :=
  match nth_error (msgArgs m) k with Some (OscFloat _) => true | _ => false end.
Definition isString (k : nat) (m : OSCMessage) : bool :=
  match nth_error (msgArgs m) k with Some (OscString _) => true | _ => false end.
Definition getInt (k : nat) (m : OSCMessage) : Z :=
  match nth_error (msgArgs m) k with Some (OscInt i) => i | _ => 0 end.
Definition getFloat (k : nat) (m : OSCMessage) : float32 :=
  match nth_error (msgArgs m) k with Some (OscFloat f) => f | _ => S754_zero false end.
Definition getString (k : nat) (m : OSCMessage) : string :=
  match nth_error (msgArgs m) k with Some (OscString s) => s | _ => "" end.

Inductive Task : Type := UDPLoop | PokeOSCLoop.

Inductive Effect : Type :=
| UdpSend (address : string) (args : list OSCData)
    (* beginPacket; msg.send; endPacket *)
| SendSysEx (frame : string)          (* midiOut.sendSysEx *)
| LedFlash (pin : Z)                  (* xTaskCreate(taskLedFlash, pin) *)
| DigitalWrite (pin : Z) (v : PinLevel)
| TaskResume (t : Task)
| TaskSuspend (t : Task)
| TaskDelay (ms : Z)
| SerialPrint (s : string)
| SerialPrintInt (n : Z)
| SerialPrintFloat (f : float32)
| SerialPrintWidget (w : OSCWidget)
| SerialPrintMillis
| SerialPrintLocalIP
| SerialDump (bytes : string)
| UdpBegin (port : Z).

(** What [println] appends, and the backspace that the progress marks end
    with. *)
Definition CRLF : string := String "013" (String "010" EmptyString).
Definition BS : string := String "008" EmptyString.
Definition BS8 : string := (BS ++ BS ++ BS ++ BS ++ BS ++ BS ++ BS ++ BS)%string.

(** ** C strings *)

(** The bytes a [char*] denotes when it points at [s]: those before the
    first NUL. *)
Fixpoint c_str (s : string) : string :=
  match s with
  | EmptyString => EmptyString
  | String c r => if Ascii.eqb c "000"%char then EmptyString else String c (c_str r)
  end.

(** [strcat(dest, src)] into a buffer of [cap] bytes: the result with its
    terminator must fit, otherwise the behaviour is undefined ([None]). *)
Definition strcat (cap : nat) (dest : option string) (src : string)
    : option string :=
  match dest with
  | None => None
  | Some d =>
      let r := (d ++ src)%string in
      if (String.length r + 1 <=? cap)%nat then Some r else None
  end.

(** [itoa(n, buf, 10)]: decimal digits, with a leading minus sign for a
    negative [n]. *)
Definition itoa (n : Z) : string := DecimalString.NilZero.string_of_int (Z.to_int n).

(** ** SysEx builder *)

Definition bigMidiCommand_size : nat := 64.
Definition midiHeader : string :=
  String "240" (String "000" (String "032" (String "050" (String "050" EmptyString)))).
Definition midiSpacer : string := String "032" EmptyString.
Definition midiFooter : string := String "247" EmptyString.
(** What the SysEx frame is meant to be: the five bytes of the preamble,
    the address, one separator, the payload, the terminator. *)
Definition intendedFrame (oscCommand oscArgument : string) : string :=
  (midiHeader ++ oscCommand ++ midiSpacer ++ oscArgument ++ midiFooter)%string.

Definition stringOFF : string := "OFF".
Definition stringON : string := "ON".

Section Sketch.

(** [midiSpacer] and [midiFooter] are one-byte arrays with no terminator:
    [strcat] keeps reading the bytes laid out after them, up to the first
    NUL. Those bytes are a parameter of the model. *)
Variable past_midiSpacer past_midiFooter : string.

(** [OSCMessage::fullMatch] of the OSC library, on the address of the
    inbound message and the address of a widget. *)
Variable fullMatch : string -> string -> bool.

Definition midiBuildCommand (oscCommand oscArgument : string) : option string :=
  let b0 := Some EmptyString in
  let b1 := strcat bigMidiCommand_size b0 (c_str midiHeader) in
  let b2 := strcat bigMidiCommand_size b1 oscCommand in
  let b3 := strcat bigMidiCommand_size b2 (c_str (midiSpacer ++ past_midiSpacer)%string) in
  let b4 := strcat bigMidiCommand_size b3 oscArgument in
  strcat bigMidiCommand_size b4 (c_str (midiFooter ++ past_midiFooter)%string).

(** ** Dispatch: compose and send *)

(** [itoa((int)((oscPayload_f*127) + 0.5), stringNumber, 10)] with
    [char stringNumber[4]]. *)
Definition stringNumber_size : nat := 4.

Definition faderInt (f : float32) : option Z :=
  int_of_f64 (f64_add (f64_of_f32 (f32_mul f (f32_of_int 127))) f64_half).

Definition faderText (f : float32) : option string :=
  match faderInt f with
  | Some n =>
      let s := itoa n in
      if (String.length s + 1 <=? stringNumber_size)%nat then Some s else None
  | None => None
  end.

(** "compose the OSC message": the widget after the update and the arguments
    added to [msg]. For a fader, [oscPayload_s] is left pointing at the
    buffer [stringNumber]; the model stores the text that the buffer holds
    during this dispatch, which is what [midiBuildCommand] reads. *)
Definition composeMessage (w : OSCWidget) : option (OSCWidget * list OSCData) :=
  if isOscToggle w then
    let w1 := set_oscState (if oscState w <? 1 then 1 else 0) w in
    let w2 := set_oscPayload_s (if oscState w1 <? 1 then stringOFF else stringON) w1 in
    Some (w2, [OscInt (oscState w2)])
  else if f32_ge0 (oscPayload_f w) then
    match faderText (oscPayload_f w) with
    | Some s => Some (set_oscPayload_s s w, [OscFloat (oscPayload_f w)])
    | None => None
    end
  else
    Some (w, (if String.eqb (oscPayload_s w) "" then [] else [OscString (oscPayload_s w)])
             ++ (if 0 <=? oscPayload_i w then [OscInt (oscPayload_i w)] else [])).

(** The confirmation probe: [do_xRemote && (isOscToggle || oscPayload_f >= 0)]. *)
Definition wantsProbe (xr : bool) (w : OSCWidget) : bool :=
  xr && (isOscToggle w || f32_ge0 (oscPayload_f w)).

(** The body of [if (action == theWidget.actionTrigger && ...)]. [None]
    stands for undefined behaviour: a float outside the range of [int], an
    overrun of [stringNumber] or of [bigMidiCommand]. *)
Definition dispatch (xr : bool) (w : OSCWidget) : option (OSCWidget * list Effect) :=
  match composeMessage w with
  | None => None
  | Some (w1, args) =>
      match midiBuildCommand (oscAddress w1) (oscPayload_s w1) with
      | None => None
      | Some frame =>
          Some (w1,
                [UdpSend (oscAddress w1) args]
                ++ (if wantsProbe xr w1 then [UdpSend (oscAddress w1) []] else [])
                ++ [SendSysEx frame]
                ++ (if negb xr then [LedFlash (ledPin w1)] else [])
                ++ [SerialPrintMillis; SerialPrintWidget w1])
      end
  end.

(** One widget in one pass of the [for (auto &theWidget : myWidgets)] loop. *)
Definition widgetTick (xr : bool) (p : ButtonPoll) (w : OSCWidget)
    : option (OSCWidget * list Effect) :=
  let '(w1, a) := buttonAction p w in
  if qualifies a w1 then dispatch xr w1 else Some (w1, []).

(** ** Globals *)

Record Globals : Type := mkGlobals {
  do_xRemote : bool;
  do_Refresh : bool;
  widgets : list OSCWidget
}.

Definition initialGlobals : Globals := mkGlobals true true myWidgets.

(** "poll the service button(s)". *)
Definition pollModeButton (p : ButtonPoll) (g : Globals) : Globals * list Effect :=
  if toggled p then
    let xr := match read p with RELEASED => true | PRESSED => false end in
    let '(g1, e1) :=
      if xr then (mkGlobals xr true (widgets g), [TaskResume UDPLoop])
      else (mkGlobals xr (do_Refresh g) (widgets g), []) in
    (g1, e1 ++ [SerialPrintMillis; SerialPrint "do_xRemote: ";
                SerialPrintInt (if xr then 1 else 0); SerialPrint CRLF])
  else (g, []).

(** "poll the OSC button(s)": the widgets are visited in order, each with
    its own button poll. A missing poll leaves the rest untouched.

    After a fader dispatch [oscPayload_s] points at the one buffer
    [stringNumber] of the task. The widgets of the model keep the text that
    their own dispatch wrote, which is what their frame and their debug print
    read; the text that the pointer of an earlier fader reads after a later
    fader dispatch is not tracked. No effect depends on it: a fader dispatch
    writes the buffer before it reads it. *)
Fixpoint pollWidgets (xr : bool) (ps : list ButtonPoll) (ws : list OSCWidget)
    : option (list OSCWidget * list Effect) :=
  match ws, ps with
  | w :: ws', p :: ps' =>
      match widgetTick xr p w with
      | None => None
      | Some (w1, e1) =>
          match pollWidgets xr ps' ws' with
          | None => None
          | Some (ws1, e2) => Some (w1 :: ws1, e1 ++ e2)
          end
      end
  | _, _ => Some (ws, [])
  end.

(** One pass of the [for (;;)] loop of [taskButtonsLoop]. *)
Definition taskButtonsLoop_pass (pm : ButtonPoll) (ps : list ButtonPoll)
    (g : Globals) : option (Globals * list Effect) :=
  let '(g1, e1) := pollModeButton pm g in
  match pollWidgets (do_xRemote g1) ps (widgets g1) with
  | None => None
  | Some (ws, e2) => Some (mkGlobals (do_xRemote g1) (do_Refresh g1) ws, e1 ++ e2)
  end.

(** ** Inbound reconciliation ([taskUDPLoop]) *)


(** The level written for a Toggle widget whose state was just received. *)
Definition toggleLedLevel (w : OSCWidget) : PinLevel :=
  if isReverseLed w
  then (if 0 <? oscState w then LED_PIN_OFF else LED_PIN_ON)
  else (if 0 <? oscState w then LED_PIN_ON else LED_PIN_OFF).

(** The three branches taken on a matching widget. The copy of the string
    argument into [str[64]] only feeds the diagnostic output. *)
Definition reconcileMatch (msg : OSCMessage) (w : OSCWidget)
    : OSCWidget * list Effect :=
  if isInt 0 msg && isOscToggle w then
    let w1 := set_oscState (getInt 0 msg) w in
    (w1, [DigitalWrite (ledPin w1) (toggleLedLevel w1)])
  else if isFloat 0 msg then
    (w, [SerialPrint " FLOAT: "; SerialPrintFloat (getFloat 0 msg);
         LedFlash (ledPin w)])
  else if isString 0 msg then
    (w, [SerialPrint " STRING: '"; SerialPrint (getString 0 msg)]
        ++ (if isInt 1 msg
            then [SerialPrint "' INDEX: "; SerialPrintInt (getInt 1 msg)]
            else [])
        ++ [LedFlash (ledPin w)])
  else (w, []).

(** The body of the loop over [myWidgets]: the widget, the effects and
    whether the address matched. *)
Definition reconcile (msg : OSCMessage) (w : OSCWidget)
    : OSCWidget * list Effect * bool :=
  if fullMatch (msgAddress msg) (oscAddress w) then
    let '(w1, e) := reconcileMatch msg w in
    (w1,
     [SerialPrint "MATCHES "; SerialPrint (friendlyDebugName w)]
     ++ e ++ [SerialPrint CRLF],
     true)
  else (w, [], false).

(** "do we recognise this OSC message?": the widgets, the effects and the
    final value of [matched]. *)
Fixpoint reconcileAll (msg : OSCMessage) (ws : list OSCWidget) (matched : Z)
    : list OSCWidget * list Effect * Z :=
  match ws with
  | [] => ([], [], matched)
  | w :: ws' =>
      let '(w1, e1, hit) := reconcile msg w in
      let '(ws1, e2, n) :=
        reconcileAll msg ws' (if hit then matched + 1 else matched) in
      (w1 :: ws1, e1 ++ e2, n)
  end.

(** What [Udp.parsePacket] and the fill loop deliver in one pass. *)
Inductive Datagram : Type :=
| NoDatagram                                   (* size <= 0 *)
| Received (bytes : string) (msg : OSCMessage) (* !msg.hasError() *)
| Malformed (bytes : string) (error : Z).      (* msg.hasError() *)

(** [if (size > 0) { ... }]. *)
Definition handleDatagram (d : Datagram) (ws : list OSCWidget) (matched : Z)
    : list OSCWidget * list Effect * Z :=
  match d with
  | NoDatagram => (ws, [], matched)
  | Received bytes msg =>
      let '(ws1, e, n) := reconcileAll msg ws 0 in
      (ws1,
       [SerialPrintMillis; SerialPrintInt (Z.of_nat (String.length bytes));
        SerialPrint " bytes received: "; SerialDump bytes; SerialPrint " --> "]
       ++ e
       ++ (if n =? 0 then [SerialPrint "NO MATCH"; SerialPrint CRLF] else []),
       n)
  | Malformed bytes err =>
      (ws,
       [SerialPrintMillis; SerialPrintInt (Z.of_nat (String.length bytes));
        SerialPrint " bytes received: "; SerialDump bytes; SerialPrint " --> ";
        SerialPrint "ERROR: "; SerialPrintInt err; SerialPrint CRLF],
       0)
  end.

(** The locals of [taskUDPLoop] that outlive a pass. *)
Record UdpLocals : Type := mkUdpLocals {
  odd : bool;
  m : Z;
  matched : Z
}.

(** One pass of the [for (;;)] loop of [taskUDPLoop]; [connected] is
    [WiFi.status() == WL_CONNECTED]. *)
Definition taskUDPLoop_pass (connected : bool) (now : Z) (d : Datagram)
    (l : UdpLocals) (g : Globals) : Globals * UdpLocals * list Effect :=
  if do_xRemote g && connected then
    let '(l1, e1) :=
      if 500 <? ulong_sub now (m l)
      then (mkUdpLocals (negb (odd l)) now (matched l),
            [SerialPrint ((if negb (odd l) then "*" else ".") ++ BS)%string])
      else (l, []) in
    let '(ws, e2, n) := handleDatagram d (widgets g) (matched l1) in
    (mkGlobals (do_xRemote g) (do_Refresh g) ws,
     mkUdpLocals (odd l1) (m l1) n,
     e1 ++ e2 ++ [TaskDelay 10])
  else
    (g, l,
     [SerialPrintMillis; SerialPrint "taskUDPLoop suspending itself.";
      SerialPrint CRLF; TaskSuspend UDPLoop; TaskDelay 10]).

(** ** Presence and refresh ([taskPokeOSCLoop]) *)

(** The address-only messages of the refresh, in the order of [myWidgets]. *)
Fixpoint refreshProbes (ws : list OSCWidget) : list Effect :=
  match ws with
  | [] => []
  | w :: ws' =>
      if isOscToggle w
      then UdpSend (oscAddress w) [] :: refreshProbes ws'
      else refreshProbes ws'
  end.

Fixpoint allLedsOff (ws : list OSCWidget) : list Effect :=
  match ws with
  | [] => []
  | w :: ws' => DigitalWrite (ledPin w) LED_PIN_OFF :: allLedsOff ws'
  end.

(** The connected branch through [do_Refresh = false]: the renewal is sent,
    the flag is tested and, when set, cleared. The result also tells whether
    the refresh is to follow. *)
Definition pokeRenew (g : Globals) : Globals * list Effect * bool :=
  let e := [SerialPrint ("/xremote" ++ BS8)%string; UdpSend "/xremote" []] in
  if do_Refresh g
  then (mkGlobals (do_xRemote g) false (widgets g), e, true)
  else (g, e, false).

(** The rest of [if (do_Refresh) { ... }]: the settle delay, then one
    message per Toggle widget. *)
Definition pokeRefresh (g : Globals) : list Effect :=
  TaskDelay 20 :: refreshProbes (widgets g).

(** One pass of the [for (;;)] loop of [taskPokeOSCLoop], with its local
    [doneLedOff]. *)
Definition taskPokeOSCLoop_pass (connected : bool) (doneLedOff : bool)
    (g : Globals) : Globals * bool * list Effect :=
  if do_xRemote g && connected then
    let '(g1, e1, refresh) := pokeRenew g in
    (g1, false,
     e1 ++ (if refresh then pokeRefresh g1 else [])
        ++ [TaskDelay 9000; TaskDelay 10])
  else if negb doneLedOff then
    (g, true, allLedsOff (widgets g)
              ++ [SerialPrint ("/-------" ++ BS8)%string; TaskDelay 10])
  else (g, doneLedOff, [TaskDelay 10]).

(** [WiFiGotIP]: the link is up. *)
Definition localPort : Z := 8888.

Definition WiFiGotIP : list Effect :=
  [SerialPrintMillis; SerialPrint "Obtained local IP address: ";
   SerialPrintLocalIP; SerialPrint CRLF;
   SerialPrintMillis; SerialPrint "Udp.begin("; SerialPrintInt localPort;
   SerialPrint ") and Resuming taskUDPLoop"; SerialPrint CRLF;
   UdpBegin localPort; TaskResume UDPLoop; TaskResume PokeOSCLoop].

(** ** Derived notions used in the statements *)

(** The semantics kind of a widget, as the branches of [composeMessage]
    decide it. *)
Inductive Kind : Type := Toggle | Fader | Fire.

Definition kindOf (w : OSCWidget) : Kind :=
  if isOscToggle w then Toggle
  else if f32_ge0 (oscPayload_f w) then Fader
  else Fire.

(** The real number a finite float stands for. *)
Definition SF2Q (x : spec_float) : Q :=
  match x with
  | S754_finite s m e =>
      match e with
      | Zneg k => Qmake (cond_Zopp s (Zpos m)) (2 ^ k)%positive
      | _ => inject_Z (cond_Zopp s (Zpos m) * 2 ^ e)
      end
  | _ => 0%Q
  end.

(** [round] as the specification means it: the nearest integer, a half
    going away from zero. *)
Definition spec_round (q : Q) : Z :=
  if Qle_bool 0 q then Qfloor (q + Qmake 1 2) else - Qfloor (- q + Qmake 1 2).


(** The shape of a product [v * 127] for [v] in the unit interval: a zero,
    or a positive binary32 value that does not exceed 127. *)
Definition small_f32 (p : float32) : Prop :=
  match p with
  | S754_zero _ => True
  | S754_finite false mp ep =>
      Zpos (digits2_pos mp) <= 24 /\ -149 <= ep <= -17
      /\ Zpos mp <= 127 * 2 ^ (- ep)
  | _ => False
  end.

(** The actions dispatched for one widget over a sequence of polls of its
    button. Only the press-timing fields steer [buttonAction], and the
    dispatch leaves them alone (see [dispatch_keeps_timing]). *)
Fixpoint firedDuring (ps : list ButtonPoll) (w : OSCWidget) : list Z :=
  match ps with
  | [] => []
  | p :: ps' =>
      (match firedAction p w with Some a => [a] | None => [] end)
      ++ firedDuring ps' (fst (buttonAction p w))
  end.

(** One widget over a sequence of passes of the loop of [taskButtonsLoop]:
    the widget at the end and the effects of each pass. *)
Fixpoint widgetRun (xr : bool) (ps : list ButtonPoll) (w : OSCWidget)
    : option (OSCWidget * list (list Effect)) :=
  match ps with
  | [] => Some (w, [])
  | p :: ps' =>
      match widgetTick xr p w with
      | None => None
      | Some (w1, e) =>
          match widgetRun xr ps' w1 with
          | None => None
          | Some (w2, es) => Some (w2, e :: es)
          end
      end
  end.

(** The fields that steer [buttonAction] and the guard of the dispatch. *)
Definition same_timing (w1 w2 : OSCWidget) : Prop :=
  actionTrigger w1 = actionTrigger w2
  /\ pressedMillis w1 = pressedMillis w2
  /\ wasPressed w1 = wasPressed w2.

(** One physical hold: the press edge at [t0], the polls at [ts] while the
    button stays down, the release edge at [tr]. *)
Definition hold (t0 : Z) (ts : list Z) (tr : Z) : list ButtonPoll :=
  press_edge t0 :: map held ts ++ [release_edge tr].

(** A poll of the hold saw more than [LONG_PRESS_DURATION] elapse. *)
Definition exceeds (t0 t : Z) : bool := LONG_PRESS_DURATION <? ulong_sub t t0.

Definition isUdpSend (e : Effect) : bool :=
  match e with UdpSend _ _ => true | _ => false end.
Definition isSendSysEx (e : Effect) : bool :=
  match e with SendSysEx _ => true | _ => false end.
Definition isDigitalWrite (e : Effect) : bool :=
  match e with DigitalWrite _ _ => true | _ => false end.
(** Diagnostics and pacing only: nothing a console, a pin or a task sees. *)
Definition isQuiet (e : Effect) : bool :=
  match e with
  | SerialPrint _ | SerialPrintInt _ | SerialPrintFloat _
  | SerialPrintWidget _ | SerialPrintMillis | SerialPrintLocalIP
  | SerialDump _ | TaskDelay _ => true
  | _ => false
  end.

(** ** The indicator flash ([taskLedFlash]) *)

(** The task started by [xTaskCreate(taskLedFlash, ..., pin, ...)]: its pin
    goes on, the task sleeps 200 ms or, without [do_xRemote], 100 ms, the
    pin goes off, and the task deletes itself. *)
Definition taskLedFlash (xr : bool) (pin : Z) : list Effect :=
  [DigitalWrite pin LED_PIN_ON; TaskDelay (if xr then 200 else 100);
   DigitalWrite pin LED_PIN_OFF].

(** ** Battery and WiFi status ([taskStatusLoop]) *)

Definition PIN_FOR_WIFI_STATUS_LED : Z := 22.
Definition PIN_FOR_BATTERY_STATUS_LED : Z := 19.
Definition BATTERY_LOW_CUTOFF : Z := 3034.

(** The values of [wl_status_t] that [wl_status_to_string] knows. *)
Inductive wl_status_t : Type :=
| WL_NO_SHIELD | WL_IDLE_STATUS | WL_NO_SSID_AVAIL | WL_SCAN_COMPLETED
| WL_CONNECTED | WL_CONNECT_FAILED | WL_CONNECTION_LOST | WL_DISCONNECTED.

Definition wl_status_eqb (a b : wl_status_t) : bool :=
  match a, b with
  | WL_NO_SHIELD, WL_NO_SHIELD | WL_IDLE_STATUS, WL_IDLE_STATUS
  | WL_NO_SSID_AVAIL, WL_NO_SSID_AVAIL | WL_SCAN_COMPLETED, WL_SCAN_COMPLETED
  | WL_CONNECTED, WL_CONNECTED | WL_CONNECT_FAILED, WL_CONNECT_FAILED
  | WL_CONNECTION_LOST, WL_CONNECTION_LOST | WL_DISCONNECTED, WL_DISCONNECTED => true
  | _, _ => false
  end.

Definition wl_status_to_string (status : wl_status_t) : string :=
  match status with
  | WL_NO_SHIELD => "WL_NO_SHIELD"
  | WL_IDLE_STATUS => "WL_IDLE_STATUS"
  | WL_NO_SSID_AVAIL => "WL_NO_SSID_AVAIL"
  | WL_SCAN_COMPLETED => "WL_SCAN_COMPLETED"
  | WL_CONNECTED => "WL_CONNECTED"
  | WL_CONNECT_FAILED => "WL_CONNECT_FAILED"
  | WL_CONNECTION_LOST => "WL_CONNECTION_LOST"
  | WL_DISCONNECTED => "WL_DISCONNECTED"
  end.

(** The locals of [taskStatusLoop] that outlive a pass. [lastWifiStatus]
    starts as 99, which is no status: [None]. *)
Record StatusLocals : Type := mkStatusLocals {
  batteryStatusLed : PinLevel;
  wifiStatusLed : PinLevel;
  lastWifiStatus : option wl_status_t
}.

Definition initialStatusLocals : StatusLocals :=
  mkStatusLocals LED_PIN_ON LED_PIN_ON None.

(** [(led == LED_PIN_ON) ? LED_PIN_OFF : LED_PIN_ON]. *)
Definition flipLed (led : PinLevel) : PinLevel :=
  match led with LOW => LED_PIN_OFF | HIGH => LED_PIN_ON end.

(** [wifiStatus != lastWifiStatus]. *)
Definition statusChanged (wifiStatus : wl_status_t) (last : option wl_status_t) : bool :=
  match last with
  | Some s => negb (wl_status_eqb wifiStatus s)
  | None => true
  end.

(** One pass of the [for (;;)] loop of [taskStatusLoop]; [wifiStatus] is
    [WiFi.status()] and [batteryLevel] is [analogRead]. *)
Definition taskStatusLoop_pass (wifiStatus : wl_status_t) (batteryLevel : Z)
    (l : StatusLocals) : StatusLocals * list Effect :=
  let changed := statusChanged wifiStatus (lastWifiStatus l) in
  let last := if changed then Some wifiStatus else lastWifiStatus l in
  let '(wled, e1) :=
    if wl_status_eqb wifiStatus WL_CONNECTED then (LED_PIN_ON, [])
    else (flipLed (wifiStatusLed l),
          if changed
          then [SerialPrintMillis;
                SerialPrint "WiFi not connected.  WiFi.status() is: ";
                SerialPrint (wl_status_to_string wifiStatus); SerialPrint CRLF]
          else []) in
  let bled :=
    if batteryLevel <? BATTERY_LOW_CUTOFF then flipLed (batteryStatusLed l)
    else LED_PIN_OFF in
  (mkStatusLocals bled wled last,
   e1 ++ [DigitalWrite PIN_FOR_WIFI_STATUS_LED wled;
          DigitalWrite PIN_FOR_BATTERY_STATUS_LED bled; TaskDelay 500]).

(** The passes of [taskStatusLoop] over a sequence of readings. *)
Fixpoint taskStatusLoop_run (ins : list (wl_status_t * Z)) (l : StatusLocals)
    : StatusLocals * list Effect :=
  match ins with
  | [] => (l, [])
  | (st, lvl) :: ins' =>
      let '(l1, e1) := taskStatusLoop_pass st lvl l in
      let '(l2, e2) := taskStatusLoop_run ins' l1 in
      (l2, e1 ++ e2)
  end.

(** ** More derived notions *)

Definition isLedFlash (e : Effect) : bool :=
  match e with LedFlash _ => true | _ => false end.
Definition isSerial (e : Effect) : bool :=
  match e with
  | SerialPrint _ | SerialPrintInt _ | SerialPrintFloat _
  | SerialPrintWidget _ | SerialPrintMillis | SerialPrintLocalIP
  | SerialDump _ => true
  | _ => false
  end.
Definition isTaskControl (e : Effect) : bool :=
  match e with TaskResume _ | TaskSuspend _ => true | _ => false end.

(** The level of a pin after the writes of a list of effects, given the
    level before. *)
Fixpoint pinAfter (pin : Z) (es : list Effect) (before : PinLevel) : PinLevel :=
  match es with
  | [] => before
  | DigitalWrite p v :: es' => pinAfter pin es' (if p =? pin then v else before)
  | _ :: es' => pinAfter pin es' before
  end.

(** A poll that sees the press edge. *)
Definition isPressEdge (p : ButtonPoll) : bool :=
  toggled p && match read p with PRESSED => true | RELEASED => false end.

(** The arguments of a Fire message: the string when it is not empty, then
    the index when it is not negative. *)
Definition fireArgs (w : OSCWidget) : list OSCData :=
  (if String.eqb (oscPayload_s w) "" then [] else [OscString (oscPayload_s w)])
  ++ (if 0 <=? oscPayload_i w then [OscInt (oscPayload_i w)] else []).

(** Two widgets that differ at most in [oscState]. *)
Definition same_but_state (w1 w2 : OSCWidget) : Prop :=
  w2 = set_oscState (oscState w2) w1.

(** * Properties *)

(** ** Input state machine *)

Lemma buttonAction_trigger (p : ButtonPoll) (w : OSCWidget) :
  actionTrigger (fst (buttonAction p w)) = actionTrigger w.
Proof.
  unfold buttonAction.
  destruct (toggled p); [destruct (read p); reflexivity|].
  destruct (wasPressed w && _); reflexivity.
Qed.

Lemma set_press_trigger (t : Z) (w : OSCWidget) :
  actionTrigger (set_press t w) = actionTrigger w.
Proof. reflexivity. Qed.

Lemma clear_wasPressed_trigger (w : OSCWidget) :
  actionTrigger (clear_wasPressed w) = actionTrigger w.
Proof. reflexivity. Qed.

Lemma firedAction_press_edge (t : Z) (w : OSCWidget) :
  firedAction (press_edge t) w =
  if actionTrigger w =? action_PRESS then Some action_PRESS else None.
Proof.
  cbv [firedAction buttonAction press_edge toggled read millis qualifies].
  rewrite set_press_trigger, (Z.eqb_sym action_PRESS).
  destruct (actionTrigger w =? action_PRESS); reflexivity.
Qed.

Lemma firedAction_release_edge (t : Z) (w : OSCWidget) :
  firedAction (release_edge t) w = None.
Proof.
  cbv [firedAction buttonAction release_edge toggled read millis qualifies].
  rewrite Z.eqb_refl, andb_false_r. reflexivity.
Qed.

Lemma firedAction_no_edge (b : ButtonState) (t : Z) (w : OSCWidget) :
  firedAction (mkPoll false b t) w =
  if wasPressed w && exceeds (pressedMillis w) t
     && (actionTrigger w =? action_LONG_PRESS)
  then Some action_LONG_PRESS else None.
Proof.
  cbv [firedAction buttonAction toggled read millis qualifies exceeds].
  destruct (wasPressed w && _).
  - rewrite clear_wasPressed_trigger, (Z.eqb_sym action_LONG_PRESS).
    destruct (actionTrigger w =? action_LONG_PRESS); reflexivity.
  - rewrite Z.eqb_refl, andb_false_r. reflexivity.
Qed.

Lemma buttonAction_no_edge (b : ButtonState) (t : Z) (w : OSCWidget) :
  fst (buttonAction (mkPoll false b t) w) =
  if wasPressed w && exceeds (pressedMillis w) t then clear_wasPressed w else w.
Proof.
  cbv [buttonAction toggled read millis exceeds].
  destruct (wasPressed w && _); reflexivity.
Qed.

Lemma widgetTick_fired (xr : bool) (p : ButtonPoll) (w : OSCWidget) :
  widgetTick xr p w =
  match firedAction p w with
  | Some _ => dispatch xr (fst (buttonAction p w))
  | None => Some (fst (buttonAction p w), [])
  end.
Proof.
  unfold widgetTick, firedAction.
  destruct (buttonAction p w) as [w1 a]; cbn [fst].
  destruct (qualifies a w1); reflexivity.
Qed.

(** Once [wasPressed] is down, nothing fires until the next press edge. *)
Lemma firedDuring_not_pressed (ts : list Z) (tr : Z) (w : OSCWidget) :
  wasPressed w = false ->
  firedDuring (map held ts ++ [release_edge tr]) w = [].
Proof.
  revert w. induction ts as [|t ts IH]; intros w Hw; cbn [map app firedDuring].
  - now rewrite firedAction_release_edge.
  - change (held t) with (mkPoll false PRESSED t).
    rewrite firedAction_no_edge, buttonAction_no_edge, Hw.
    cbn [andb app]. now apply IH.
Qed.

(** While [wasPressed] is up, the first poll past the threshold fires, and
    only a widget triggered by the long press dispatches it. *)
Lemma firedDuring_pressed (ts : list Z) (tr : Z) (w : OSCWidget) :
  wasPressed w = true ->
  firedDuring (map held ts ++ [release_edge tr]) w =
  if existsb (exceeds (pressedMillis w)) ts
     && (actionTrigger w =? action_LONG_PRESS)
  then [action_LONG_PRESS] else [].
Proof.
  revert w. induction ts as [|t ts IH]; intros w Hw; cbn [map app firedDuring existsb].
  - now rewrite firedAction_release_edge.
  - change (held t) with (mkPoll false PRESSED t).
    rewrite firedAction_no_edge, buttonAction_no_edge, Hw.
    cbn [andb]. destruct (exceeds (pressedMillis w) t); cbn [orb andb].
    + rewrite firedDuring_not_pressed by reflexivity.
      destruct (actionTrigger w =? action_LONG_PRESS); reflexivity.
    + cbn [app]. now apply IH.
Qed.

(** C1 (amended). A widget triggered by the short press has its action
    dispatched by exactly the polls that see the press edge of its button,
    whatever the length of the hold that follows: a release edge and a poll
    without an edge dispatch nothing for it. *)
Theorem short_press_fires_on_press_edge (xr : bool) (p : ButtonPoll) (w : OSCWidget) :
  actionTrigger w = action_PRESS ->
  firedAction p w =
    (if toggled p && match read p with PRESSED => true | RELEASED => false end
     then Some action_PRESS else None)
  /\ widgetTick xr p w =
    (if toggled p && match read p with PRESSED => true | RELEASED => false end
     then dispatch xr (set_press (millis p) w)
     else Some (fst (buttonAction p w), [])).
Proof.
  intros Hw.
  assert (H : firedAction p w =
    (if toggled p && match read p with PRESSED => true | RELEASED => false end
     then Some action_PRESS else None)).
  { destruct p as [[|] [|] t]; cbn [toggled read andb].
    - change (mkPoll true PRESSED t) with (press_edge t).
      now rewrite firedAction_press_edge, Hw.
    - apply firedAction_release_edge.
    - rewrite firedAction_no_edge, Hw, andb_false_r. reflexivity.
    - rewrite firedAction_no_edge, Hw, andb_false_r. reflexivity. }
  split; [exact H|].
  rewrite widgetTick_fired, H.
  destruct p as [[|] [|] t]; reflexivity.
Qed.

(** ** Command codec and dispatch *)

Lemma append_assoc (a b c : string) :
  ((a ++ b) ++ c = a ++ (b ++ c))%string.
Proof. induction a as [|x a IH]; cbn; [reflexivity|now rewrite IH]. Qed.

Lemma append_length (a b : string) :
  String.length (a ++ b) = (String.length a + String.length b)%nat.
Proof. induction a as [|x a IH]; cbn; [reflexivity|now rewrite IH]. Qed.

Lemma strcat_Some (cap : nat) (dest : option string) (src r : string) :
  strcat cap dest src = Some r ->
  exists d, dest = Some d /\ r = (d ++ src)%string
            /\ (String.length r + 1 <= cap)%nat.
Proof.
  unfold strcat. destruct dest as [d|]; [|discriminate].
  destruct (Nat.leb_spec (String.length (d ++ src) + 1) cap) as [Hle|Hgt];
    [|discriminate].
  intros [= <-]. now exists d.
Qed.

(** What the five [strcat]s leave in [bigMidiCommand]. *)
Lemma midiBuildCommand_Some (cmd arg frame : string) :
  midiBuildCommand cmd arg = Some frame ->
  frame = (c_str midiHeader ++ cmd ++ c_str (midiSpacer ++ past_midiSpacer)
           ++ arg ++ c_str (midiFooter ++ past_midiFooter))%string
  /\ (String.length frame + 1 <= bigMidiCommand_size)%nat.
Proof.
  unfold midiBuildCommand. intros H.
  apply strcat_Some in H as (d4 & H4 & -> & Hlen).
  apply strcat_Some in H4 as (d3 & H3 & -> & _).
  apply strcat_Some in H3 as (d2 & H2 & -> & _).
  apply strcat_Some in H2 as (d1 & H1 & -> & _).
  apply strcat_Some in H1 as (d0 & [= <-] & -> & _).
  split; [|exact Hlen].
  cbn [String.append]. now rewrite !append_assoc.
Qed.

Lemma composeMessage_config (w w1 : OSCWidget) (args : list OSCData) :
  composeMessage w = Some (w1, args) ->
  friendlyDebugName w1 = friendlyDebugName w /\ buttonPin w1 = buttonPin w
  /\ ledPin w1 = ledPin w /\ actionTrigger w1 = actionTrigger w
  /\ pressedMillis w1 = pressedMillis w /\ wasPressed w1 = wasPressed w
  /\ isOscToggle w1 = isOscToggle w /\ isReverseLed w1 = isReverseLed w
  /\ oscAddress w1 = oscAddress w /\ oscPayload_i w1 = oscPayload_i w
  /\ oscPayload_f w1 = oscPayload_f w.
Proof.
  unfold composeMessage.
  destruct (isOscToggle w) eqn:Ht.
  - intros [= <- _]. cbn. now rewrite Ht.
  - destruct (f32_ge0 (oscPayload_f w)).
    + destruct (faderText (oscPayload_f w)); [|discriminate].
      intros [= <- _]. cbn. now rewrite Ht.
    + intros [= <- _]. now rewrite Ht.
Qed.

(** The dispatch leaves alone the fields that steer the input state
    machine. *)
Lemma dispatch_keeps_timing (xr : bool) (w w1 : OSCWidget) (effs : list Effect) :
  dispatch xr w = Some (w1, effs) ->
  actionTrigger w1 = actionTrigger w /\ pressedMillis w1 = pressedMillis w
  /\ wasPressed w1 = wasPressed w.
Proof.
  unfold dispatch.
  destruct (composeMessage w) as [[w2 args]|] eqn:Hc; [|discriminate].
  destruct (midiBuildCommand _ _); [|discriminate].
  intros [= <- _].
  destruct (composeMessage_config _ _ _ Hc) as (_ & _ & _ & H4 & H5 & H6 & _).
  repeat split; assumption.
Qed.

Lemma kindOf_probe (xr : bool) (w : OSCWidget) :
  wantsProbe xr w = xr && match kindOf w with Fire => false | _ => true end.
Proof.
  unfold wantsProbe, kindOf.
  destruct (isOscToggle w), (f32_ge0 (oscPayload_f w)); reflexivity.
Qed.

(** The effects of a dispatch, in program order. *)
Lemma dispatch_effects (xr : bool) (w w1 : OSCWidget) (effs : list Effect) :
  dispatch xr w = Some (w1, effs) ->
  exists (args : list OSCData) (frame : string),
    composeMessage w = Some (w1, args)
    /\ midiBuildCommand (oscAddress w) (oscPayload_s w1) = Some frame
    /\ effs =
       UdpSend (oscAddress w) args
       :: (if wantsProbe xr w then [UdpSend (oscAddress w) []] else [])
       ++ SendSysEx frame
       :: (if xr then [] else [LedFlash (ledPin w)])
       ++ [SerialPrintMillis; SerialPrintWidget w1].
Proof.
  unfold dispatch.
  destruct (composeMessage w) as [[w2 args]|] eqn:Hc; [|discriminate].
  destruct (midiBuildCommand _ _) as [frame|] eqn:Hm; [|discriminate].
  intros [= <- <-]. exists args, frame.
  pose proof (composeMessage_config _ _ _ Hc)
    as (_ & _ & Hled & _ & _ & _ & Htog & _ & Haddr & _ & Hf).
  assert (Hp : wantsProbe xr w2 = wantsProbe xr w)
    by (unfold wantsProbe; now rewrite Htog, Hf).
  rewrite Hp, Hled, Haddr in *. repeat split; try assumption.
  destruct xr; reflexivity.
Qed.

(** The frame is built whenever it fits [bigMidiCommand] with its
    terminator. *)
Lemma midiBuildCommand_fits (cmd arg : string) :
  let frame := (c_str midiHeader ++ cmd ++ c_str (midiSpacer ++ past_midiSpacer)
                ++ arg ++ c_str (midiFooter ++ past_midiFooter))%string in
  (String.length frame + 1 <= bigMidiCommand_size)%nat ->
  midiBuildCommand cmd arg = Some frame.
Proof.
  intros frame Hlen. unfold midiBuildCommand, strcat.
  unfold frame in Hlen. rewrite !append_length in Hlen.
  repeat match goal with
  | |- context [(?a <=? ?b)%nat] =>
      destruct (Nat.leb_spec a b) as [_|Hbad];
      [|exfalso; revert Hbad; rewrite ?append_length; cbn [String.length]; lia]
  end.
  unfold frame. cbn [String.append]. now rewrite !append_assoc.
Qed.

(** The five [strcat]s in closed form: the frame when it fits, undefined
    otherwise. *)
Lemma midiBuildCommand_closed (cmd arg : string) :
  let frame := (c_str midiHeader ++ cmd ++ c_str (midiSpacer ++ past_midiSpacer)
                ++ arg ++ c_str (midiFooter ++ past_midiFooter))%string in
  midiBuildCommand cmd arg
  = if (String.length frame + 1 <=? bigMidiCommand_size)%nat
    then Some frame else None.
Proof.
  intros frame.
  destruct (Nat.leb_spec (String.length frame + 1) bigMidiCommand_size) as [Hle|Hgt].
  - now apply midiBuildCommand_fits.
  - destruct (midiBuildCommand cmd arg) as [f|] eqn:Hm; [|reflexivity].
    apply midiBuildCommand_Some in Hm as [-> Hlen]. fold frame in Hlen.
    exfalso. apply (Nat.lt_irrefl bigMidiCommand_size).
    eapply Nat.lt_le_trans; eassumption.
Qed.

Lemma frame_length (cmd arg : string) :
  (String.length (c_str midiHeader ++ cmd ++ c_str (midiSpacer ++ past_midiSpacer)
                  ++ arg ++ c_str (midiFooter ++ past_midiFooter))%string + 1
   = String.length cmd + String.length arg
     + String.length (c_str (midiSpacer ++ past_midiSpacer))
     + String.length (c_str (midiFooter ++ past_midiFooter)) + 2)%nat.
Proof.
  rewrite !append_length. change (String.length (c_str midiHeader)) with 1%nat.
  lia.
Qed.

(** The same with the lengths written out. *)
Lemma midiBuildCommand_len (cmd arg : string) :
  midiBuildCommand cmd arg
  = if (String.length cmd + String.length arg
        + String.length (c_str (midiSpacer ++ past_midiSpacer))
        + String.length (c_str (midiFooter ++ past_midiFooter)) + 2
        <=? bigMidiCommand_size)%nat
    then Some (c_str midiHeader ++ cmd ++ c_str (midiSpacer ++ past_midiSpacer)
               ++ arg ++ c_str (midiFooter ++ past_midiFooter))%string
    else None.
Proof.
  rewrite midiBuildCommand_closed. cbv zeta. now rewrite frame_length.
Qed.

(** The dispatch of a Toggle in closed form: the state is normalised, the
    text follows it, and the dispatch is defined exactly when the frame
    fits. *)
Lemma toggle_dispatch_closed (xr : bool) (w : OSCWidget) :
  isOscToggle w = true ->
  dispatch xr w
  = (let s1 := if oscState w <? 1 then 1 else 0 in
     let text := if oscState w <? 1 then "ON" else "OFF" in
     let w1 := set_oscPayload_s text (set_oscState s1 w) in
     if (String.length (oscAddress w) + String.length text
         + String.length (c_str (midiSpacer ++ past_midiSpacer))
         + String.length (c_str (midiFooter ++ past_midiFooter)) + 2
         <=? bigMidiCommand_size)%nat
     then Some (w1,
                UdpSend (oscAddress w) [OscInt s1]
                :: (if xr then [UdpSend (oscAddress w) []] else [])
                ++ SendSysEx (c_str midiHeader ++ oscAddress w
                              ++ c_str (midiSpacer ++ past_midiSpacer)
                              ++ text
                              ++ c_str (midiFooter ++ past_midiFooter))%string
                :: (if xr then [] else [LedFlash (ledPin w)])
                ++ [SerialPrintMillis; SerialPrintWidget w1])
     else None).
Proof.
  intros Ht. unfold dispatch, composeMessage, wantsProbe. rewrite Ht.
  destruct (oscState w <? 1) eqn:Hs;
    cbn [set_oscState set_oscPayload_s oscState oscAddress oscPayload_s
         isOscToggle ledPin Z.ltb Z.compare Pos.compare Pos.compare_cont];
    cbv zeta; unfold stringON, stringOFF;
    rewrite midiBuildCommand_len, Ht;
    match goal with |- context [(?a <=? ?b)%nat] => destruct (a <=? b)%nat end;
    destruct xr; reflexivity.
Qed.

(** ** The long press over the passes of the loop *)

Lemma firedAction_timing (p : ButtonPoll) (w1 w2 : OSCWidget) :
  same_timing w1 w2 -> firedAction p w1 = firedAction p w2.
Proof.
  intros (Ht & Hm & Hp). destruct p as [[|] [|] t].
  - change (mkPoll true PRESSED t) with (press_edge t).
    now rewrite !firedAction_press_edge, Ht.
  - change (mkPoll true RELEASED t) with (release_edge t).
    now rewrite !firedAction_release_edge.
  - now rewrite !firedAction_no_edge, Ht, Hm, Hp.
  - now rewrite !firedAction_no_edge, Ht, Hm, Hp.
Qed.

Lemma buttonAction_timing (p : ButtonPoll) (w1 w2 : OSCWidget) :
  same_timing w1 w2 ->
  same_timing (fst (buttonAction p w1)) (fst (buttonAction p w2)).
Proof.
  intros (Ht & Hm & Hp). unfold buttonAction. rewrite Hm, Hp.
  destruct (toggled p); [destruct (read p); repeat split; assumption|].
  destruct (wasPressed w2 && _); repeat split; assumption.
Qed.

Lemma firedDuring_timing (ps : list ButtonPoll) (w1 w2 : OSCWidget) :
  same_timing w1 w2 -> firedDuring ps w1 = firedDuring ps w2.
Proof.
  revert w1 w2. induction ps as [|p ps IH]; intros w1 w2 H; cbn [firedDuring].
  - reflexivity.
  - rewrite (firedAction_timing p w1 w2 H).
    now rewrite (IH _ _ (buttonAction_timing p w1 w2 H)).
Qed.

(** A pass sends a SysEx frame for the widget exactly when an action fired,
    and leaves the press timing as [buttonAction] set it. *)
Lemma widgetTick_timing (xr : bool) (p : ButtonPoll) (w w1 : OSCWidget)
    (e : list Effect) :
  widgetTick xr p w = Some (w1, e) ->
  same_timing w1 (fst (buttonAction p w))
  /\ existsb isSendSysEx e
     = match firedAction p w with Some _ => true | None => false end.
Proof.
  rewrite widgetTick_fired. destruct (firedAction p w) as [a|].
  - intros Hd. split.
    + apply dispatch_keeps_timing in Hd. exact Hd.
    + destruct (dispatch_effects _ _ _ _ Hd) as (args & frame & _ & _ & ->).
      cbn [existsb isSendSysEx orb].
      rewrite existsb_app. cbn [existsb isSendSysEx orb].
      now rewrite orb_true_r.
  - intros [= <- <-]. split; [repeat split|reflexivity].
Qed.

(** The passes that send a frame are as many as the actions fired. *)
Lemma widgetRun_fired (xr : bool) (ps : list ButtonPoll) (w w' : OSCWidget)
    (es : list (list Effect)) :
  widgetRun xr ps w = Some (w', es) ->
  List.length (filter (existsb isSendSysEx) es) = List.length (firedDuring ps w).
Proof.
  revert w w' es.
  induction ps as [|p ps IH]; intros w w' es; cbn [widgetRun firedDuring].
  - intros [= _ <-]. reflexivity.
  - destruct (widgetTick xr p w) as [[w1 e]|] eqn:Ht; [|discriminate].
    destruct (widgetRun xr ps w1) as [[w2 es']|] eqn:Hr; [|discriminate].
    intros [= _ <-]. destruct (widgetTick_timing _ _ _ _ _ Ht) as [Hs He].
    cbn [filter]. rewrite He, length_app, <- (firedDuring_timing ps _ _ Hs).
    rewrite <- (IH _ _ _ Hr). destruct (firedAction p w); reflexivity.
Qed.

(** C2. Over one physical hold, a widget triggered by the long press has
    its action dispatched exactly once when some poll of the hold sees the
    threshold exceeded, and never otherwise: [wasPressed] is lowered by the
    first firing; the passes of the loop over the hold send that many SysEx
    frames for it. No widget has anything dispatched on a release edge. *)
Theorem long_press_once_per_hold (w : OSCWidget) (t0 tr : Z) (ts : list Z) :
  actionTrigger w = action_LONG_PRESS ->
  firedDuring (hold t0 ts tr) w =
    (if existsb (exceeds t0) ts then [action_LONG_PRESS] else [])
  /\ (forall (xr : bool) (w' : OSCWidget) (es : list (list Effect)),
        widgetRun xr (hold t0 ts tr) w = Some (w', es) ->
        List.length (filter (existsb isSendSysEx) es)
        = if existsb (exceeds t0) ts then 1%nat else 0%nat)
  /\ (forall (xr : bool) (w' : OSCWidget) (t : Z),
        firedAction (release_edge t) w' = None
        /\ widgetTick xr (release_edge t) w' = Some (clear_wasPressed w', [])).
Proof.
  intros Hw.
  assert (Hf : firedDuring (hold t0 ts tr) w =
               (if existsb (exceeds t0) ts then [action_LONG_PRESS] else [])).
  { unfold hold. cbn [firedDuring].
    rewrite firedAction_press_edge, Hw. cbn [Z.eqb action_LONG_PRESS action_PRESS Pos.eqb app].
    change (fst (buttonAction (press_edge t0) w)) with (set_press t0 w).
    rewrite firedDuring_pressed by reflexivity.
    cbn [pressedMillis set_press actionTrigger]. rewrite Hw, Z.eqb_refl, andb_true_r.
    reflexivity. }
  split; [exact Hf|]. split.
  - intros xr w' es Hr. rewrite (widgetRun_fired _ _ _ _ _ Hr), Hf.
    destruct (existsb (exceeds t0) ts); reflexivity.
  - intros xr w' t. split; [apply firedAction_release_edge|].
    rewrite widgetTick_fired, firedAction_release_edge. reflexivity.
Qed.

(** C4. A dispatch sends two messages to the console, the second one
    without arguments and to the address of the widget, exactly when
    [do_xRemote] holds and the widget is of Toggle or Fader kind, and one
    message otherwise (never a second one for Fire); the SysEx frame is sent
    once by every dispatch, whatever [do_xRemote] is. *)
Theorem dispatch_probe_and_sysex (xr : bool) (w w1 : OSCWidget) (effs : list Effect) :
  dispatch xr w = Some (w1, effs) ->
  let probe := xr && match kindOf w with Fire => false | _ => true end in
  (probe = true <-> xr = true /\ (kindOf w = Toggle \/ kindOf w = Fader))
  /\ (exists args : list OSCData,
        filter isUdpSend effs
        = UdpSend (oscAddress w) args
          :: (if probe then [UdpSend (oscAddress w) []] else []))
  /\ (exists frame : string,
        midiBuildCommand (oscAddress w) (oscPayload_s w1) = Some frame
        /\ filter isSendSysEx effs = [SendSysEx frame]).
Proof.
  intros Hd probe.
  destruct (dispatch_effects _ _ _ _ Hd) as (args & frame & _ & Hm & ->).
  rewrite kindOf_probe. fold probe. split; [|split].
  - unfold probe. destruct xr, (kindOf w); cbn [andb];
      (split; [intros H; try discriminate H; auto
              |intros [H1 [H2|H2]]; try discriminate; reflexivity]).
  - exists args. destruct probe, xr; reflexivity.
  - exists frame. split; [exact Hm|]. destruct probe, xr; reflexivity.
Qed.

(** C6. Dispatching a Toggle widget whose state is 0 or 1, and whose frame
    fits the buffer with the longer of the two texts, succeeds: it flips the
    state, sends the new state as the only argument of the message, and
    frames the text ON for the new state 1 and OFF for the new state 0; a
    second dispatch succeeds as well and brings the state back. *)
Theorem toggle_dispatch_flips (xr : bool) (w : OSCWidget) :
  isOscToggle w = true ->
  oscState w = 0 \/ oscState w = 1 ->
  (String.length (oscAddress w) + 3
   + String.length (c_str (midiSpacer ++ past_midiSpacer))
   + String.length (c_str (midiFooter ++ past_midiFooter)) + 2
   <= bigMidiCommand_size)%nat ->
  exists (w1 : OSCWidget) (effs : list Effect),
    dispatch xr w = Some (w1, effs)
    /\ oscState w1 = 1 - oscState w
    /\ oscPayload_s w1 = (if oscState w1 =? 1 then "ON" else "OFF")
    /\ (exists rest, effs = UdpSend (oscAddress w) [OscInt (oscState w1)] :: rest)
    /\ filter isSendSysEx effs
       = [SendSysEx (c_str midiHeader ++ oscAddress w
                     ++ c_str (midiSpacer ++ past_midiSpacer)
                     ++ (if (oscState w1 =? 1)%Z then "ON" else "OFF")
                     ++ c_str (midiFooter ++ past_midiFooter))%string]
    /\ (forall xr' : bool,
          exists (w2 : OSCWidget) (effs2 : list Effect),
            dispatch xr' w1 = Some (w2, effs2) /\ oscState w2 = oscState w).
Proof.
  intros Ht Hs Hfit.
  assert (Hon : (String.length (oscAddress w) + String.length "ON"
                 + String.length (c_str (midiSpacer ++ past_midiSpacer))
                 + String.length (c_str (midiFooter ++ past_midiFooter)) + 2
                 <=? bigMidiCommand_size)%nat = true)
    by (apply Nat.leb_le; cbn [String.length]; lia).
  assert (Hoff : (String.length (oscAddress w) + String.length "OFF"
                  + String.length (c_str (midiSpacer ++ past_midiSpacer))
                  + String.length (c_str (midiFooter ++ past_midiFooter)) + 2
                  <=? bigMidiCommand_size)%nat = true)
    by (apply Nat.leb_le; cbn [String.length]; lia).
  pose proof (toggle_dispatch_closed xr w Ht) as Hd. cbv zeta in Hd.
  destruct Hs as [Hs|Hs]; rewrite Hs in Hd |- *.
  - change (0 <? 1) with true in Hd. cbv iota in Hd. rewrite Hon in Hd.
    eexists. eexists. split; [exact Hd|].
    cbn [oscState set_oscPayload_s set_oscState oscPayload_s].
    split; [reflexivity|]. split; [reflexivity|].
    split; [eexists; reflexivity|].
    split; [destruct xr; reflexivity|].
    intros xr'.
    pose proof (toggle_dispatch_closed xr'
                  (set_oscPayload_s "ON" (set_oscState 1 w)) Ht) as Hd2.
    cbv zeta in Hd2.
    cbn [oscState set_oscPayload_s set_oscState oscAddress] in Hd2.
    change (1 <? 1) with false in Hd2. cbv iota in Hd2. rewrite Hoff in Hd2.
    eexists. eexists. split; [exact Hd2|]. reflexivity.
  - change (1 <? 1) with false in Hd. cbv iota in Hd. rewrite Hoff in Hd.
    eexists. eexists. split; [exact Hd|].
    cbn [oscState set_oscPayload_s set_oscState oscPayload_s].
    split; [reflexivity|]. split; [reflexivity|].
    split; [eexists; reflexivity|].
    split; [destruct xr; reflexivity|].
    intros xr'.
    pose proof (toggle_dispatch_closed xr'
                  (set_oscPayload_s "OFF" (set_oscState 0 w)) Ht) as Hd2.
    cbv zeta in Hd2.
    cbn [oscState set_oscPayload_s set_oscState oscAddress] in Hd2.
    change (0 <? 1) with true in Hd2. cbv iota in Hd2. rewrite Hon in Hd2.
    eexists. eexists. split; [exact Hd2|]. reflexivity.
Qed.

(** ** Inbound reconciliation *)

Lemma reconcile_no_match (msg : OSCMessage) (w : OSCWidget) :
  fullMatch (msgAddress msg) (oscAddress w) = false ->
  reconcile msg w = (w, [], false).
Proof. unfold reconcile. now intros ->. Qed.

Lemma reconcileAll_no_match (msg : OSCMessage) (ws : list OSCWidget) (n0 : Z) :
  forallb (fun w => negb (fullMatch (msgAddress msg) (oscAddress w))) ws = true ->
  reconcileAll msg ws n0 = (ws, [], n0).
Proof.
  revert n0. induction ws as [|w ws IH]; intros n0 H; cbn [reconcileAll].
  - reflexivity.
  - cbn [forallb] in H. apply andb_prop in H as [Hw Hws].
    apply negb_true_iff in Hw.
    rewrite reconcile_no_match by assumption.
    rewrite IH by assumption. reflexivity.
Qed.

(** The loop visits every widget: position [i] of the result is the widget
    at position [i] after its own [reconcile], and its effects are part of
    the effects of the loop. *)
Lemma reconcileAll_nth (msg : OSCMessage) (ws : list OSCWidget) (n0 : Z)
    (i : nat) (w : OSCWidget) :
  nth_error ws i = Some w ->
  nth_error (fst (fst (reconcileAll msg ws n0))) i
    = Some (fst (fst (reconcile msg w)))
  /\ incl (snd (fst (reconcile msg w))) (snd (fst (reconcileAll msg ws n0))).
Proof.
  revert n0 i. induction ws as [|w0 ws IH]; intros n0 i H.
  - destruct i; discriminate.
  - cbn [reconcileAll].
    destruct (reconcile msg w0) as [[w1 e1] hit] eqn:Hr.
    destruct (reconcileAll msg ws (if hit then n0 + 1 else n0))
      as [[ws1 e2] n] eqn:Ha.
    cbn [fst snd]. destruct i as [|i]; cbn [nth_error] in *.
    + injection H as ->. rewrite Hr. cbn [fst snd]. split; [reflexivity|].
      now apply incl_appl, incl_refl.
    + specialize (IH (if hit then n0 + 1 else n0) i H). rewrite Ha in IH.
      cbn [fst snd] in IH. destruct IH as [IH1 IH2]. split; [exact IH1|].
      now apply incl_appr.
Qed.

(** C5. An inbound message that matches a Toggle widget and carries the
    integer [s] first stores [s] as the state of the widget and writes its
    indicator pin: active exactly when ([s] > 0) differs from the reversed
    polarity, that is for [s] > 0 under normal polarity and for [s] <= 0
    under reversed polarity. *)
Theorem inbound_int_sets_toggle (msg : OSCMessage) (w : OSCWidget) (s : Z) :
  fullMatch (msgAddress msg) (oscAddress w) = true ->
  isOscToggle w = true ->
  nth_error (msgArgs msg) 0 = Some (OscInt s) ->
  let lvl := if xorb (0 <? s) (isReverseLed w) then LED_PIN_ON else LED_PIN_OFF in
  reconcile msg w
    = (set_oscState s w,
       [SerialPrint "MATCHES "; SerialPrint (friendlyDebugName w);
        DigitalWrite (ledPin w) lvl; SerialPrint CRLF],
       true)
  /\ (lvl = LED_PIN_ON <-> (if isReverseLed w then s <= 0 else 0 < s))
  /\ (forall (ws : list OSCWidget) (i : nat) (n0 : Z),
        nth_error ws i = Some w ->
        nth_error (fst (fst (reconcileAll msg ws n0))) i = Some (set_oscState s w)
        /\ In (DigitalWrite (ledPin w) lvl) (snd (fst (reconcileAll msg ws n0)))).
Proof.
  intros Hm Ht Ha lvl.
  assert (Hr : reconcile msg w
    = (set_oscState s w,
       [SerialPrint "MATCHES "; SerialPrint (friendlyDebugName w);
        DigitalWrite (ledPin w) lvl; SerialPrint CRLF],
       true)).
  { unfold reconcile, reconcileMatch, isInt, getInt. rewrite Hm, Ha, Ht.
    cbn [andb app]. unfold toggleLedLevel, lvl.
    cbn [isReverseLed oscState ledPin set_oscState].
    destruct (isReverseLed w), (0 <? s); reflexivity. }
  split; [exact Hr|]. split.
  - unfold lvl, LED_PIN_ON, LED_PIN_OFF.
    destruct (isReverseLed w), (Z.ltb_spec 0 s) as [Hs|Hs]; cbn [xorb];
      split; intros Hx; try reflexivity; try discriminate; lia.
  - intros ws i n0 Hi.
    destruct (reconcileAll_nth msg ws n0 i w Hi) as [H1 H2].
    rewrite Hr in H1, H2. cbn [fst snd] in H1, H2. split; [exact H1|].
    apply H2. right. right. now left.
Qed.

(** C8. A well-formed inbound message whose address matches no widget
    changes no widget, writes no pin and starts no flash: the pass prints
    its diagnostics, ending with NO MATCH, and goes on. *)
Theorem unmatched_message_dropped (bytes : string) (msg : OSCMessage)
    (now : Z) (l : UdpLocals) (g : Globals) :
  forallb (fun w => negb (fullMatch (msgAddress msg) (oscAddress w)))
    (widgets g) = true ->
  handleDatagram (Received bytes msg) (widgets g) (matched l)
    = (widgets g,
       [SerialPrintMillis; SerialPrintInt (Z.of_nat (String.length bytes));
        SerialPrint " bytes received: "; SerialDump bytes; SerialPrint " --> ";
        SerialPrint "NO MATCH"; SerialPrint CRLF],
       0)
  /\ (do_xRemote g = true ->
      fst (fst (taskUDPLoop_pass true now (Received bytes msg) l g)) = g
      /\ forallb isQuiet (snd (taskUDPLoop_pass true now (Received bytes msg) l g))
         = true).
Proof.
  intros H.
  assert (Hh : handleDatagram (Received bytes msg) (widgets g) (matched l)
    = (widgets g,
       [SerialPrintMillis; SerialPrintInt (Z.of_nat (String.length bytes));
        SerialPrint " bytes received: "; SerialDump bytes; SerialPrint " --> ";
        SerialPrint "NO MATCH"; SerialPrint CRLF],
       0)).
  { unfold handleDatagram. now rewrite reconcileAll_no_match. }
  split; [exact Hh|]. intros Hx.
  unfold taskUDPLoop_pass. rewrite Hx. cbn [andb].
  destruct (500 <? ulong_sub now (m l)).
  - change (matched (mkUdpLocals (negb (odd l)) now (matched l))) with (matched l).
    rewrite Hh. cbn [fst snd]. split; [destruct g; now rewrite <- Hx|].
    reflexivity.
  - rewrite Hh. cbn [fst snd]. split; [destruct g; now rewrite <- Hx|].
    reflexivity.
Qed.

(** C10 (amended). On a matching widget, an integer first argument for a
    widget that is not a Toggle, and a first argument that is absent or
    neither integer, float nor string, change nothing: the match is counted
    and logged, the state stays, no pin is written and no flash starts. A
    float or a string first argument that does not set a Toggle state also
    leaves the state and the pin alone, but it does start a flash on the
    indicator pin of the widget, whatever the kind of the widget. *)
Theorem mismatched_argument_effects (msg : OSCMessage) (w : OSCWidget) :
  fullMatch (msgAddress msg) (oscAddress w) = true ->
  (isInt 0 msg && isOscToggle w = false ->
   fst (fst (reconcile msg w)) = w
   /\ existsb isDigitalWrite (snd (fst (reconcile msg w))) = false
   /\ snd (reconcile msg w) = true)
  /\ (isInt 0 msg = true /\ isOscToggle w = false
      \/ isInt 0 msg = false /\ isFloat 0 msg = false /\ isString 0 msg = false ->
      reconcile msg w
        = (w, [SerialPrint "MATCHES "; SerialPrint (friendlyDebugName w);
               SerialPrint CRLF], true))
  /\ (isInt 0 msg = false -> isFloat 0 msg || isString 0 msg = true ->
      In (LedFlash (ledPin w)) (snd (fst (reconcile msg w)))).
Proof.
  intros Hm. unfold reconcile, reconcileMatch. rewrite Hm.
  repeat split.
  - rewrite H. destruct (isFloat 0 msg); [reflexivity|].
    destruct (isString 0 msg); reflexivity.
  - rewrite H. destruct (isFloat 0 msg); [reflexivity|].
    destruct (isString 0 msg); [|reflexivity].
    destruct (isInt 1 msg); reflexivity.
  - rewrite H. destruct (isFloat 0 msg); [reflexivity|].
    destruct (isString 0 msg); reflexivity.
  - intros [[Hi Ht]|(Hi & Hf & Hs)].
    + rewrite Hi, Ht. cbn [andb].
      assert (Hf : isFloat 0 msg = false)
        by (unfold isInt, isFloat in *;
            destruct (nth_error (msgArgs msg) 0) as [[| | |]|]; easy).
      assert (Hs : isString 0 msg = false)
        by (unfold isInt, isString in *;
            destruct (nth_error (msgArgs msg) 0) as [[| | |]|]; easy).
      now rewrite Hf, Hs.
    + now rewrite Hi, Hf, Hs.
  - intros Hi Hfs. rewrite Hi. cbn [andb].
    destruct (isFloat 0 msg); cbn [orb] in Hfs.
    + cbn. tauto.
    + rewrite Hfs. destruct (isInt 1 msg); cbn; tauto.
Qed.

(** ** Mode switch and refresh *)

Lemma refreshProbes_filter (ws : list OSCWidget) :
  refreshProbes ws
  = map (fun w => UdpSend (oscAddress w) []) (filter isOscToggle ws).
Proof.
  induction ws as [|w ws IH]; cbn [refreshProbes filter map]; [reflexivity|].
  destruct (isOscToggle w); cbn [map]; now rewrite IH.
Qed.

(** C3 (amended). When the mode switch toggles to the released position,
    [do_xRemote] and [do_Refresh] are set and the inbound task
    ([taskUDPLoop]) is resumed; the poll task is not touched. The next
    connected pass of the poll task sends the renewal, clears [do_Refresh],
    waits the settle delay and then sends one address-only message per
    Toggle widget, in the order of the widgets; the pass after it sends the
    renewal only. The poll task is the one resumed when the link comes
    up. *)
Theorem mode_switch_refresh (t : Z) (doneLedOff : bool) (g : Globals) :
  let g1 := mkGlobals true true (widgets g) in
  let g2 := mkGlobals true false (widgets g) in
  pollModeButton (release_edge t) g
    = (g1, [TaskResume UDPLoop; SerialPrintMillis; SerialPrint "do_xRemote: ";
            SerialPrintInt 1; SerialPrint CRLF])
  /\ pokeRenew g1
    = (g2, [SerialPrint ("/xremote" ++ BS8)%string; UdpSend "/xremote" []], true)
  /\ taskPokeOSCLoop_pass true doneLedOff g1
    = (g2, false,
       [SerialPrint ("/xremote" ++ BS8)%string; UdpSend "/xremote" [];
        TaskDelay 20]
       ++ map (fun w => UdpSend (oscAddress w) []) (filter isOscToggle (widgets g))
       ++ [TaskDelay 9000; TaskDelay 10])
  /\ taskPokeOSCLoop_pass true false g2
    = (g2, false,
       [SerialPrint ("/xremote" ++ BS8)%string; UdpSend "/xremote" [];
        TaskDelay 9000; TaskDelay 10])
  /\ In (TaskResume PokeOSCLoop) WiFiGotIP.
Proof.
  intros g1 g2. repeat split; [|cbn; tauto].
  unfold taskPokeOSCLoop_pass, pokeRenew, pokeRefresh, g1, g2.
  cbn [do_xRemote do_Refresh widgets andb app].
  now rewrite refreshProbes_filter.
Qed.

(** ** Further properties of the dispatch *)

Lemma kindOf_Fire (w : OSCWidget) :
  kindOf w = Fire -> isOscToggle w = false /\ f32_ge0 (oscPayload_f w) = false.
Proof.
  unfold kindOf. destruct (isOscToggle w); [discriminate|].
  destruct (f32_ge0 (oscPayload_f w)); [discriminate|]. now split.
Qed.

(** X23. [midiBuildCommand] yields the frame (the bytes of [midiHeader] up
    to its NUL, the address, the separator, the payload, the terminator)
    exactly when the frame and its terminating NUL fit the 64 bytes of
    [bigMidiCommand]; a longer frame overruns the buffer. A frame that is
    built has at most 63 bytes. *)
Theorem midiBuildCommand_iff_fits (cmd arg : string) :
  let frame := (c_str midiHeader ++ cmd ++ c_str (midiSpacer ++ past_midiSpacer)
                ++ arg ++ c_str (midiFooter ++ past_midiFooter))%string in
  midiBuildCommand cmd arg
  = (if (String.length cmd + String.length arg
         + String.length (c_str (midiSpacer ++ past_midiSpacer))
         + String.length (c_str (midiFooter ++ past_midiFooter)) + 2
         <=? bigMidiCommand_size)%nat
     then Some frame else None)
  /\ (forall f, midiBuildCommand cmd arg = Some f -> (String.length f <= 63)%nat).
Proof.
  intros frame. split.
  - rewrite midiBuildCommand_closed. fold frame.
    replace (String.length frame + 1)%nat
      with (String.length cmd + String.length arg
            + String.length (c_str (midiSpacer ++ past_midiSpacer))
            + String.length (c_str (midiFooter ++ past_midiFooter)) + 2)%nat;
      [reflexivity|].
    unfold frame. rewrite !append_length.
    change (String.length (c_str midiHeader)) with 1%nat. lia.
  - intros f Hf. apply midiBuildCommand_Some in Hf as [_ Hlen].
    unfold bigMidiCommand_size in Hlen.
    apply Nat.succ_le_mono. now rewrite <- Nat.add_1_r.
Qed.

(** X1. A Fire widget is dispatched as it stands, and the dispatch is
    defined exactly when the frame of its address and string payload fits
    the buffer: the widget is unchanged, the message carries the string
    payload when it is not empty and then the index when it is not negative
    (possibly nothing at all), no second message follows even with
    [do_xRemote], the SysEx frame carries the string payload only, never the
    index, and the flash is started without [do_xRemote] only. *)
Theorem fire_dispatch_as_configured (xr : bool) (w : OSCWidget) :
  kindOf w = Fire ->
  dispatch xr w
  = if (String.length (oscAddress w) + String.length (oscPayload_s w)
        + String.length (c_str (midiSpacer ++ past_midiSpacer))
        + String.length (c_str (midiFooter ++ past_midiFooter)) + 2
        <=? bigMidiCommand_size)%nat
    then Some (w,
               UdpSend (oscAddress w) (fireArgs w)
               :: SendSysEx (c_str midiHeader ++ oscAddress w
                             ++ c_str (midiSpacer ++ past_midiSpacer)
                             ++ oscPayload_s w
                             ++ c_str (midiFooter ++ past_midiFooter))%string
               :: (if xr then [] else [LedFlash (ledPin w)])
               ++ [SerialPrintMillis; SerialPrintWidget w])
    else None.
Proof.
  intros Hk. destruct (kindOf_Fire w Hk) as [Ht Hf].
  unfold dispatch, composeMessage, wantsProbe. rewrite Ht, Hf.
  rewrite midiBuildCommand_len, Ht, Hf. cbn [orb]. rewrite andb_false_r.
  match goal with |- context [(?a <=? ?b)%nat] => destruct (a <=? b)%nat end;
    [|reflexivity].
  destruct xr; reflexivity.
Qed.

(** X3. A dispatch changes nothing of a widget but [oscState] and
    [oscPayload_s]: name, pins, trigger, press timing, address, index and
    scalar stay, and so does the kind; only a Toggle changes its state. *)
Theorem dispatch_changes_state_and_text_only (xr : bool) (w w1 : OSCWidget)
    (effs : list Effect) :
  dispatch xr w = Some (w1, effs) ->
  w1 = set_oscPayload_s (oscPayload_s w1) (set_oscState (oscState w1) w)
  /\ kindOf w1 = kindOf w
  /\ (isOscToggle w = false -> oscState w1 = oscState w).
Proof.
  intros Hd.
  destruct (dispatch_effects _ _ _ _ Hd) as (args & frame & Hc & _ & _).
  clear Hd. unfold composeMessage in Hc.
  destruct (isOscToggle w) eqn:Ht.
  - injection Hc as <- _. unfold kindOf.
    cbn [isOscToggle set_oscPayload_s set_oscState oscState oscPayload_s].
    rewrite Ht. repeat split. discriminate.
  - destruct (f32_ge0 (oscPayload_f w)) eqn:Hf.
    + destruct (faderText (oscPayload_f w)) as [t|]; [|discriminate].
      injection Hc as <- _. unfold kindOf.
      cbn [isOscToggle set_oscPayload_s set_oscState oscState oscPayload_s
           oscPayload_f].
      rewrite Ht, Hf. destruct w. repeat split.
    + injection Hc as <- _. destruct w. repeat split.
Qed.

(** X4. Whatever integer the state of a Toggle holds (the console may have
    reported any), a dispatch whose frame fits the buffer sends and stores 1
    when the state was below 1 and 0 otherwise: the state is 0 or 1 after
    every dispatch, and the text kept for the frame is ON for 1 and OFF for
    0. A frame that does not fit overruns the buffer. *)
Theorem toggle_dispatch_normalises (xr : bool) (w : OSCWidget) :
  isOscToggle w = true ->
  let s1 := if oscState w <? 1 then 1 else 0 in
  let text := if oscState w <? 1 then "ON" else "OFF" in
  let w1 := set_oscPayload_s text (set_oscState s1 w) in
  (oscState w1 = 0 \/ oscState w1 = 1)
  /\ oscPayload_s w1 = (if oscState w1 =? 1 then "ON" else "OFF")
  /\ dispatch xr w
     = if (String.length (oscAddress w) + String.length text
           + String.length (c_str (midiSpacer ++ past_midiSpacer))
           + String.length (c_str (midiFooter ++ past_midiFooter)) + 2
           <=? bigMidiCommand_size)%nat
       then Some (w1,
                  UdpSend (oscAddress w) [OscInt (oscState w1)]
                  :: (if xr then [UdpSend (oscAddress w) []] else [])
                  ++ SendSysEx (c_str midiHeader ++ oscAddress w
                                ++ c_str (midiSpacer ++ past_midiSpacer)
                                ++ oscPayload_s w1
                                ++ c_str (midiFooter ++ past_midiFooter))%string
                  :: (if xr then [] else [LedFlash (ledPin w)])
                  ++ [SerialPrintMillis; SerialPrintWidget w1])
       else None.
Proof.
  intros Ht s1 text w1.
  pose proof (toggle_dispatch_closed xr w Ht) as Hd. cbv zeta in Hd.
  subst s1 text w1. cbn [oscState set_oscPayload_s set_oscState oscPayload_s].
  destruct (oscState w <? 1).
  - split; [now right|]. split; [reflexivity|exact Hd].
  - split; [now left|]. split; [reflexivity|exact Hd].
Qed.

(** X5. A widget that is not a Toggle is dispatched the same way every
    time: a second dispatch leaves the widget as the first left it and has
    the same effects. *)
Theorem fader_and_fire_dispatch_repeatable (xr : bool) (w w1 : OSCWidget)
    (effs : list Effect) :
  isOscToggle w = false ->
  dispatch xr w = Some (w1, effs) ->
  dispatch xr w1 = Some (w1, effs).
Proof.
  intros Ht Hd. unfold dispatch in Hd.
  destruct (composeMessage w) as [[w2 args]|] eqn:Hc; [|discriminate].
  destruct (midiBuildCommand (oscAddress w2) (oscPayload_s w2)) as [frame|] eqn:Hm;
    [|discriminate].
  injection Hd as <- <-.
  assert (Hc1 : composeMessage w2 = Some (w2, args)).
  { unfold composeMessage in Hc |- *. rewrite Ht in Hc.
    destruct (f32_ge0 (oscPayload_f w)) eqn:Hf.
    - destruct (faderText (oscPayload_f w)) as [t|] eqn:Hx; [|discriminate].
      injection Hc as <- <-.
      cbn [isOscToggle set_oscPayload_s oscPayload_f].
      rewrite Ht, Hf, Hx. reflexivity.
    - injection Hc as <- <-. now rewrite Ht, Hf. }
  unfold dispatch. now rewrite Hc1, Hm.
Qed.

(** ** Further properties of the input state machine *)

Lemma firedAction_Some (p : ButtonPoll) (w : OSCWidget) (a : Z) :
  firedAction p w = Some a ->
  a = actionTrigger w /\ (a = action_PRESS \/ a = action_LONG_PRESS).
Proof.
  destruct p as [[|] [|] t].
  - change (mkPoll true PRESSED t) with (press_edge t).
    rewrite firedAction_press_edge.
    destruct (Z.eqb_spec (actionTrigger w) action_PRESS) as [He|]; [|discriminate].
    intros [= <-]. split; [now rewrite He|now left].
  - change (mkPoll true RELEASED t) with (release_edge t).
    rewrite firedAction_release_edge. discriminate.
  - rewrite firedAction_no_edge.
    destruct (Z.eqb_spec (actionTrigger w) action_LONG_PRESS) as [He|];
      [|rewrite andb_false_r; discriminate].
    destruct (wasPressed w && exceeds (pressedMillis w) t); [|discriminate].
    intros [= <-]. split; [now rewrite He|now right].
  - rewrite firedAction_no_edge.
    destruct (Z.eqb_spec (actionTrigger w) action_LONG_PRESS) as [He|];
      [|rewrite andb_false_r; discriminate].
    destruct (wasPressed w && exceeds (pressedMillis w) t); [|discriminate].
    intros [= <-]. split; [now rewrite He|now right].
Qed.

Lemma buttonAction_osc (p : ButtonPoll) (w : OSCWidget) :
  oscState (fst (buttonAction p w)) = oscState w
  /\ oscPayload_s (fst (buttonAction p w)) = oscPayload_s w.
Proof.
  unfold buttonAction.
  destruct (toggled p); [destruct (read p); split; reflexivity|].
  destruct (wasPressed w && _); split; reflexivity.
Qed.

(** X6. A widget whose trigger is neither the short nor the long press (a
    disabled widget, [action_NOTHING]) is never dispatched, whatever its
    button does: every pass of the loop has no effect for it, and its state
    and payload text stay. *)
Theorem disabled_trigger_never_dispatches (xr : bool) (ps : list ButtonPoll)
    (w : OSCWidget) :
  actionTrigger w <> action_PRESS ->
  actionTrigger w <> action_LONG_PRESS ->
  firedDuring ps w = []
  /\ exists w' : OSCWidget,
       widgetRun xr ps w = Some (w', map (fun _ => []) ps)
       /\ oscState w' = oscState w /\ oscPayload_s w' = oscPayload_s w.
Proof.
  revert w. induction ps as [|p ps IH]; intros w H1 H2.
  - split; [reflexivity|]. exists w. repeat split.
  - assert (Hf : firedAction p w = None).
    { destruct (firedAction p w) as [a|] eqn:Ha; [|reflexivity].
      apply firedAction_Some in Ha as [-> [Ha|Ha]]; contradiction. }
    destruct (IH (fst (buttonAction p w))) as [IHf (w' & IHr & IHs & IHp)];
      try (rewrite buttonAction_trigger; assumption).
    destruct (buttonAction_osc p w) as [Hs Hp].
    split.
    + cbn [firedDuring]. now rewrite Hf, IHf.
    + exists w'. cbn [widgetRun map]. rewrite widgetTick_fired, Hf, IHr.
      repeat split; congruence.
Qed.

(** X7. Over one physical hold a widget triggered by the short press is
    dispatched exactly once, on the press edge, however long the hold is: a
    hold that exceeds the long-press threshold still counts as a short
    press, so with a long-press widget on the same button both fire. *)
Theorem short_press_once_per_hold (w wl : OSCWidget) (t0 tr : Z) (ts : list Z) :
  actionTrigger w = action_PRESS ->
  actionTrigger wl = action_LONG_PRESS ->
  firedDuring (hold t0 ts tr) w = [action_PRESS]
  /\ firedDuring (hold t0 ts tr) w ++ firedDuring (hold t0 ts tr) wl
     = if existsb (exceeds t0) ts
       then [action_PRESS; action_LONG_PRESS] else [action_PRESS].
Proof.
  intros Hw Hl.
  assert (Hs : firedDuring (hold t0 ts tr) w = [action_PRESS]).
  { unfold hold. cbn [firedDuring]. rewrite firedAction_press_edge, Hw, Z.eqb_refl.
    change (fst (buttonAction (press_edge t0) w)) with (set_press t0 w).
    rewrite firedDuring_pressed by reflexivity.
    cbn [actionTrigger set_press]. rewrite Hw, andb_false_r. reflexivity. }
  split; [exact Hs|]. rewrite Hs.
  unfold hold. cbn [firedDuring]. rewrite firedAction_press_edge, Hl.
  change (fst (buttonAction (press_edge t0) wl)) with (set_press t0 wl).
  rewrite firedDuring_pressed by reflexivity.
  cbn [actionTrigger set_press pressedMillis]. rewrite Hl, Z.eqb_refl, andb_true_r.
  destruct (existsb (exceeds t0) ts); reflexivity.
Qed.

Lemma buttonAction_not_pressed (p : ButtonPoll) (w : OSCWidget) :
  wasPressed w = false -> isPressEdge p = false ->
  wasPressed (fst (buttonAction p w)) = false /\ firedAction p w = None.
Proof.
  intros Hw Hp. destruct p as [[|] [|] t]; try discriminate Hp.
  - split; [reflexivity|]. apply firedAction_release_edge.
  - rewrite firedAction_no_edge, buttonAction_no_edge, Hw. now split.
  - rewrite firedAction_no_edge, buttonAction_no_edge, Hw. now split.
Qed.

(** X8. Nothing is dispatched without a press edge: for a widget whose
    button is not down, polls without an edge and release edges dispatch
    nothing, however much time passes since the last (stale)
    [pressedMillis]. *)
Theorem no_press_edge_no_action (ps : list ButtonPoll) (w : OSCWidget) :
  wasPressed w = false ->
  forallb (fun p => negb (isPressEdge p)) ps = true ->
  firedDuring ps w = [].
Proof.
  revert w. induction ps as [|p ps IH]; intros w Hw Hps; [reflexivity|].
  cbn [forallb] in Hps. apply andb_prop in Hps as [Hp Hps].
  apply negb_true_iff in Hp.
  destruct (buttonAction_not_pressed p w Hw Hp) as [Hw1 Hf].
  cbn [firedDuring]. rewrite Hf. cbn [app]. now apply IH.
Qed.

(** X9. The elapsed time of a hold is right across the roll-over of
    [millis()]: for a press at [t0] and a poll [d] milliseconds later, both
    counters 32 bits wide, the threshold test sees [d], also when the
    counter has wrapped in between. *)
Theorem elapsed_across_rollover (t0 d : Z) :
  0 <= t0 < ulong_modulus ->
  0 <= d < ulong_modulus ->
  ulong_sub ((t0 + d) mod ulong_modulus) t0 = d
  /\ exceeds t0 ((t0 + d) mod ulong_modulus) = (LONG_PRESS_DURATION <? d).
Proof.
  intros Ht Hd.
  assert (H : ulong_sub ((t0 + d) mod ulong_modulus) t0 = d).
  { unfold ulong_sub. rewrite Zminus_mod_idemp_l.
    replace (t0 + d - t0) with d by ring. now apply Z.mod_small. }
  split; [exact H|]. unfold exceeds. now rewrite H.
Qed.

(** ** The passes of [taskButtonsLoop] *)

Lemma widgetTick_idle (xr : bool) (p : ButtonPoll) (w : OSCWidget) :
  toggled p = false -> wasPressed w = false ->
  widgetTick xr p w = Some (w, []).
Proof.
  intros Hp Hw. destruct p as [tg b t]. cbn [toggled] in Hp. subst tg.
  rewrite widgetTick_fired, firedAction_no_edge, buttonAction_no_edge, Hw.
  reflexivity.
Qed.

Lemma pollWidgets_idle (xr : bool) (ps : list ButtonPoll) (ws : list OSCWidget) :
  forallb (fun p => negb (toggled p)) ps = true ->
  forallb (fun w => negb (wasPressed w)) ws = true ->
  pollWidgets xr ps ws = Some (ws, []).
Proof.
  revert ps. induction ws as [|w ws IH]; intros ps Hps Hws.
  - destruct ps; reflexivity.
  - destruct ps as [|p ps]; [reflexivity|].
    cbn [forallb] in Hps, Hws.
    apply andb_prop in Hps as [Hp Hps]. apply andb_prop in Hws as [Hw Hws].
    apply negb_true_iff in Hp. apply negb_true_iff in Hw.
    cbn [pollWidgets]. rewrite widgetTick_idle by assumption.
    now rewrite IH.
Qed.



(** X10. A pass of the button task that sees no edge, on the mode switch
    or on any button, while no button is down, changes nothing and has no
    effect at all: nothing is sent, printed or flashed. *)
Theorem idle_pass_is_silent (pm : ButtonPoll) (ps : list ButtonPoll) (g : Globals) :
  toggled pm = false ->
  forallb (fun p => negb (toggled p)) ps = true ->
  forallb (fun w => negb (wasPressed w)) (widgets g) = true ->
  taskButtonsLoop_pass pm ps g = Some (g, []).
Proof.
  intros Hm Hps Hws. unfold taskButtonsLoop_pass, pollModeButton.
  rewrite Hm, pollWidgets_idle by assumption. now destruct g.
Qed.


(** ** Further properties of the inbound reconciliation *)

Lemma same_but_state_refl (w : OSCWidget) : same_but_state w w.
Proof. unfold same_but_state. now destruct w. Qed.

(** What one step of the loop over the widgets can do. *)
Lemma reconcile_shape (msg : OSCMessage) (w : OSCWidget) :
  snd (reconcile msg w) = fullMatch (msgAddress msg) (oscAddress w)
  /\ same_but_state w (fst (fst (reconcile msg w)))
  /\ (oscState (fst (fst (reconcile msg w))) <> oscState w ->
      fullMatch (msgAddress msg) (oscAddress w) = true
      /\ isOscToggle w = true /\ isInt 0 msg = true)
  /\ (forall x : Effect, In x (snd (fst (reconcile msg w))) ->
      isSerial x = true
      \/ (fullMatch (msgAddress msg) (oscAddress w) = true
          /\ (x = LedFlash (ledPin w)
              \/ exists v : PinLevel, x = DigitalWrite (ledPin w) v))).
Proof.
  unfold reconcile, reconcileMatch.
  destruct (fullMatch (msgAddress msg) (oscAddress w)) eqn:Hm.
  - destruct (isInt 0 msg) eqn:Hi, (isOscToggle w) eqn:Ht; cbn [andb].
    1: { cbn [fst snd app]. split; [reflexivity|].
         split; [unfold same_but_state; now destruct w|].
         split; [intros _; repeat split|].
         intros x Hx. cbn in Hx.
         destruct Hx as [<-|[<-|[<-|[<-|[]]]]];
           try (left; reflexivity).
         right. split; [reflexivity|]. right.
         exists (toggleLedLevel (set_oscState (getInt 0 msg) w)).
         now destruct w. }
    all: destruct (isFloat 0 msg); [|destruct (isString 0 msg);
           [destruct (isInt 1 msg)|]];
      cbn [fst snd app]; (split; [reflexivity|]);
      (split; [apply same_but_state_refl|]);
      (split; [intros Hne; now contradiction Hne|]);
      intros x Hx; cbn in Hx;
      repeat (destruct Hx as [<-|Hx];
              [first [left; reflexivity
                     |right; split; [reflexivity|]; left; reflexivity]|]);
      contradiction.
  - cbn [fst snd]. split; [reflexivity|]. split; [apply same_but_state_refl|].
    split; [intros Hne; now contradiction Hne|]. intros x [].
Qed.

Lemma reconcileAll_length (msg : OSCMessage) (ws : list OSCWidget) (n0 : Z) :
  List.length (fst (fst (reconcileAll msg ws n0))) = List.length ws.
Proof.
  revert n0. induction ws as [|w ws IH]; intros n0; cbn [reconcileAll].
  - reflexivity.
  - destruct (reconcile msg w) as [[w1 e1] hit].
    specialize (IH (if hit then n0 + 1 else n0)).
    destruct (reconcileAll msg ws (if hit then n0 + 1 else n0)) as [[ws1 e2] n].
    cbn [fst List.length] in *. now rewrite IH.
Qed.

Lemma reconcileAll_count (msg : OSCMessage) (ws : list OSCWidget) (n0 : Z) :
  snd (reconcileAll msg ws n0)
  = n0 + Z.of_nat (List.length
                     (filter (fun w => fullMatch (msgAddress msg) (oscAddress w)) ws)).
Proof.
  revert n0. induction ws as [|w ws IH]; intros n0; cbn [reconcileAll filter].
  - cbn. lia.
  - pose proof (reconcile_shape msg w) as [Hhit _].
    destruct (reconcile msg w) as [[w1 e1] hit]. cbn [snd] in Hhit. subst hit.
    specialize (IH (if fullMatch (msgAddress msg) (oscAddress w)
                    then n0 + 1 else n0)).
    destruct (reconcileAll msg ws _) as [[ws1 e2] n]. cbn [snd] in *.
    rewrite IH. destruct (fullMatch (msgAddress msg) (oscAddress w));
      cbn [List.length]; lia.
Qed.

Lemma reconcileAll_effects (msg : OSCMessage) (ws : list OSCWidget) (n0 : Z)
    (x : Effect) :
  In x (snd (fst (reconcileAll msg ws n0))) ->
  isSerial x = true
  \/ exists w : OSCWidget,
       In w ws /\ fullMatch (msgAddress msg) (oscAddress w) = true
       /\ (x = LedFlash (ledPin w)
           \/ exists v : PinLevel, x = DigitalWrite (ledPin w) v).
Proof.
  revert n0. induction ws as [|w ws IH]; intros n0; cbn [reconcileAll].
  - intros [].
  - pose proof (reconcile_shape msg w) as (_ & _ & _ & He).
    destruct (reconcile msg w) as [[w1 e1] hit]. cbn [fst snd] in He.
    specialize (IH (if hit then n0 + 1 else n0)).
    destruct (reconcileAll msg ws _) as [[ws1 e2] n]. cbn [fst snd] in *.
    intros Hx. apply in_app_or in Hx as [Hx|Hx].
    + destruct (He x Hx) as [Hs|[Hm Hc]]; [now left|right].
      exists w. split; [now left|]. now split.
    + destruct (IH Hx) as [Hs|(w' & Hin & Hm & Hc)]; [now left|right].
      exists w'. split; [now right|]. now split.
Qed.

(** X12. The inbound reconciliation changes nothing of the widgets but
    [oscState]: their number, order, configuration, payload text and press
    timing stay, and a state changes only for a Toggle whose address matches
    a message that carries an integer first. *)
Theorem reconcile_changes_state_only (msg : OSCMessage) (ws : list OSCWidget)
    (n0 : Z) :
  List.length (fst (fst (reconcileAll msg ws n0))) = List.length ws
  /\ forall (i : nat) (w : OSCWidget),
       nth_error ws i = Some w ->
       exists w1 : OSCWidget,
         nth_error (fst (fst (reconcileAll msg ws n0))) i = Some w1
         /\ same_but_state w w1
         /\ (oscState w1 <> oscState w ->
             fullMatch (msgAddress msg) (oscAddress w) = true
             /\ isOscToggle w = true /\ isInt 0 msg = true).
Proof.
  split; [apply reconcileAll_length|].
  intros i w Hi. destruct (reconcileAll_nth msg ws n0 i w Hi) as [Hn _].
  destruct (reconcile_shape msg w) as (_ & Hs & Hc & _).
  exists (fst (fst (reconcile msg w))).
  split; [exact Hn|]. split; [exact Hs|exact Hc].
Qed.

(** X13. Every widget whose address matches is handled, not just the
    first: [matched] ends as the number of matching widgets, and the pass
    prints NO MATCH after the per-widget output exactly when that number is
    zero. *)
Theorem every_matching_widget_counts (bytes : string) (msg : OSCMessage)
    (ws : list OSCWidget) (n0 : Z) :
  let k := List.length
             (filter (fun w => fullMatch (msgAddress msg) (oscAddress w)) ws) in
  snd (reconcileAll msg ws n0) = n0 + Z.of_nat k
  /\ handleDatagram (Received bytes msg) ws n0
     = (fst (fst (reconcileAll msg ws 0)),
        [SerialPrintMillis; SerialPrintInt (Z.of_nat (String.length bytes));
         SerialPrint " bytes received: "; SerialDump bytes; SerialPrint " --> "]
        ++ snd (fst (reconcileAll msg ws 0))
        ++ (if (k =? 0)%nat then [SerialPrint "NO MATCH"; SerialPrint CRLF] else []),
        Z.of_nat k).
Proof.
  intros k. split; [apply reconcileAll_count|].
  unfold handleDatagram. pose proof (reconcileAll_count msg ws 0) as Hc.
  fold k in Hc. destruct (reconcileAll msg ws 0) as [[ws1 e] n].
  cbn [fst snd] in *. subst n. cbn [Z.add].
  destruct k as [|k']; reflexivity.
Qed.

Lemma handleDatagram_effects (d : Datagram) (ws : list OSCWidget) (n0 : Z)
    (x : Effect) :
  In x (snd (fst (handleDatagram d ws n0))) ->
  isSerial x = true
  \/ exists w : OSCWidget,
       In w ws
       /\ (x = LedFlash (ledPin w)
           \/ exists v : PinLevel, x = DigitalWrite (ledPin w) v)
       /\ exists (bytes : string) (msg : OSCMessage),
            d = Received bytes msg
            /\ fullMatch (msgAddress msg) (oscAddress w) = true.
Proof.
  destruct d as [|bytes msg|bytes err]; cbn [handleDatagram].
  - intros [].
  - pose proof (reconcileAll_effects msg ws 0 x) as He.
    destruct (reconcileAll msg ws 0) as [[ws1 e] n]. cbn [fst snd] in *.
    intros Hx. apply in_app_or in Hx as [Hx|Hx].
    + left. cbn in Hx.
      repeat (destruct Hx as [<-|Hx]; [reflexivity|]). contradiction.
    + apply in_app_or in Hx as [Hx|Hx].
      * destruct (He Hx) as [Hs|(w & Hin & Hm & Hc)]; [now left|right].
        exists w. repeat split; try assumption. now exists bytes, msg.
      * left. destruct (n =? 0); cbn in Hx;
          repeat (destruct Hx as [<-|Hx]; [reflexivity|]); contradiction.
  - cbn [fst snd]. intros Hx. left. cbn in Hx.
    repeat (destruct Hx as [<-|Hx]; [reflexivity|]). contradiction.
Qed.

Lemma taskUDPLoop_active_effects (connected : bool) (now : Z)
    (d : Datagram) (l : UdpLocals) (g : Globals) (x : Effect) :
  do_xRemote g && connected = true ->
  In x (snd (taskUDPLoop_pass connected now d l g)) ->
  isQuiet x = true
  \/ exists w : OSCWidget,
       In w (widgets g)
       /\ (x = LedFlash (ledPin w)
           \/ exists v : PinLevel, x = DigitalWrite (ledPin w) v)
       /\ exists (bytes : string) (msg : OSCMessage),
            d = Received bytes msg
            /\ fullMatch (msgAddress msg) (oscAddress w) = true.
Proof.
  assert (Hq : forall y, isSerial y = true -> isQuiet y = true)
    by (intros []; cbn; congruence).
  intros Ha. unfold taskUDPLoop_pass. rewrite Ha.
  destruct (500 <? ulong_sub now (m l)).
  - pose proof (handleDatagram_effects d (widgets g) (matched l) x) as He.
    change (matched (mkUdpLocals (negb (odd l)) now (matched l)))
      with (matched l).
    destruct (handleDatagram d (widgets g) (matched l)) as [[ws e] n].
    cbn [fst snd] in *. intros Hx.
    apply in_app_or in Hx as [[<-|[]]|Hx]; [left; reflexivity|].
    apply in_app_or in Hx as [Hx|Hx].
    + destruct (He Hx) as [Hs|Hw]; [left; now apply Hq|now right].
    + left. destruct Hx as [<-|[]]. reflexivity.
  - pose proof (handleDatagram_effects d (widgets g) (matched l) x) as He.
    destruct (handleDatagram d (widgets g) (matched l)) as [[ws e] n].
    cbn [fst snd] in *. intros Hx.
    apply in_app_or in Hx as [[]|Hx]. apply in_app_or in Hx as [Hx|Hx].
    + destruct (He Hx) as [Hs|Hw]; [left; now apply Hq|now right].
    + left. destruct Hx as [<-|[]]. reflexivity.
Qed.

(** X14. The inbound task never sends anything, to the console or to the
    serial bus, and never resumes a task: apart from its diagnostics, its
    delay and its own suspension, all it does is write or flash the
    indicator pin of a widget whose address matches the message received. *)
Theorem inbound_task_touches_matching_pins_only (connected : bool) (now : Z)
    (d : Datagram) (l : UdpLocals) (g : Globals) (x : Effect) :
  In x (snd (taskUDPLoop_pass connected now d l g)) ->
  isQuiet x = true
  \/ x = TaskSuspend UDPLoop
  \/ exists w : OSCWidget,
       In w (widgets g)
       /\ (x = LedFlash (ledPin w)
           \/ exists v : PinLevel, x = DigitalWrite (ledPin w) v)
       /\ exists (bytes : string) (msg : OSCMessage),
            d = Received bytes msg
            /\ fullMatch (msgAddress msg) (oscAddress w) = true.
Proof.
  destruct (do_xRemote g && connected) eqn:Ha.
  - intros Hx.
    destruct (taskUDPLoop_active_effects connected now d l g x Ha Hx) as [Hq|Hw];
      [now left|right; now right].
  - unfold taskUDPLoop_pass. rewrite Ha. cbn [snd]. intros Hx. cbn in Hx.
    destruct Hx as [<-|[<-|[<-|[<-|[<-|[]]]]]];
      try (left; reflexivity). right. now left.
Qed.

(** X15. The inbound task suspends itself exactly in the passes that find
    [do_xRemote] off or the link down; such a pass handles no datagram and
    changes neither the widgets nor its own locals. An active pass never
    suspends or resumes a task. *)
Theorem inbound_task_suspends_itself (connected : bool) (now : Z)
    (d : Datagram) (l : UdpLocals) (g : Globals) :
  existsb isTaskControl (snd (taskUDPLoop_pass connected now d l g))
  = negb (do_xRemote g && connected)
  /\ (do_xRemote g && connected = false ->
      taskUDPLoop_pass connected now d l g
      = (g, l, [SerialPrintMillis; SerialPrint "taskUDPLoop suspending itself.";
                SerialPrint CRLF; TaskSuspend UDPLoop; TaskDelay 10])).
Proof.
  split.
  - destruct (do_xRemote g && connected) eqn:Ha.
    + destruct (existsb isTaskControl
                  (snd (taskUDPLoop_pass connected now d l g))) eqn:He;
        [|reflexivity].
      exfalso. apply existsb_exists in He as (x & Hx & Ht).
      destruct (taskUDPLoop_active_effects connected now d l g x Ha Hx)
        as [Hq|(w & _ & [->|[v ->]] & _)].
      * destruct x; cbn in Ht, Hq; congruence.
      * discriminate Ht.
      * discriminate Ht.
    + unfold taskUDPLoop_pass. rewrite Ha. reflexivity.
  - intros Ha. unfold taskUDPLoop_pass. now rewrite Ha.
Qed.

(** ** The presence task, the mode switch and the status indicators *)

Lemma allLedsOff_map (ws : list OSCWidget) :
  allLedsOff ws = map (fun w => DigitalWrite (ledPin w) LED_PIN_OFF) ws.
Proof. induction ws as [|w ws IH]; cbn; [reflexivity|now rewrite IH]. Qed.

Lemma allLedsOff_no_send (ws : list OSCWidget) :
  existsb isUdpSend (allLedsOff ws) = false.
Proof. induction ws as [|w ws IH]; cbn; [reflexivity|exact IH]. Qed.

Lemma refreshProbes_no_control (ws : list OSCWidget) :
  existsb isTaskControl (refreshProbes ws) = false
  /\ existsb isDigitalWrite (refreshProbes ws) = false
  /\ existsb isSendSysEx (refreshProbes ws) = false.
Proof.
  induction ws as [|w ws IH]; cbn; [now repeat split|].
  destruct (isOscToggle w); cbn; exact IH.
Qed.

Lemma allLedsOff_no_control (ws : list OSCWidget) :
  existsb isTaskControl (allLedsOff ws) = false
  /\ existsb isSendSysEx (allLedsOff ws) = false.
Proof. induction ws as [|w ws IH]; cbn; [now split|exact IH]. Qed.

(** X16. While the presence task finds [do_xRemote] off or the link down, it
    switches the indicators off once: the first such pass writes
    [LED_PIN_OFF] to the pin of every widget, in order, and the passes that
    follow write no pin. No such pass sends a message or changes the
    globals, so a pending refresh stays pending. *)
Theorem presence_task_clears_indicators_once (c1 c2 : bool) (g : Globals) :
  do_xRemote g && c1 = false ->
  do_xRemote g && c2 = false ->
  forall (done : bool) (g1 g2 : Globals) (d1 d2 : bool) (e1 e2 : list Effect),
    taskPokeOSCLoop_pass c1 done g = (g1, d1, e1) ->
    taskPokeOSCLoop_pass c2 d1 g1 = (g2, d2, e2) ->
    g1 = g /\ g2 = g /\ d1 = true /\ d2 = true
    /\ filter isDigitalWrite e1
       = (if done then []
          else map (fun w => DigitalWrite (ledPin w) LED_PIN_OFF) (widgets g))
    /\ e2 = [TaskDelay 10]
    /\ existsb isUdpSend e1 = false.
Proof.
  intros H1 H2 done g1 g2 d1 d2 e1 e2 P1 P2.
  unfold taskPokeOSCLoop_pass in P1. rewrite H1 in P1.
  assert (Hf : forall ws, filter isDigitalWrite (allLedsOff ws) = allLedsOff ws)
    by (induction ws as [|w ws IH]; cbn; [reflexivity|now rewrite IH]).
  destruct done; cbn [negb] in P1; injection P1 as <- <- <-;
    unfold taskPokeOSCLoop_pass in P2; rewrite H2 in P2; cbn [negb] in P2;
    injection P2 as <- <- <-.
  - now repeat split.
  - repeat split.
    + rewrite filter_app, Hf, allLedsOff_map. cbn. now rewrite app_nil_r.
    + rewrite existsb_app, allLedsOff_no_send. reflexivity.
Qed.

(** X17. The presence task never changes a widget or the mode, never
    suspends or resumes a task, writes nothing to the serial bus and never
    raises [do_Refresh]; a pass made in TwoWay mode with the link up leaves
    [do_Refresh] cleared, writes no pin and re-arms the switching-off of the
    indicators. *)
Theorem presence_task_keeps_widgets (connected done : bool) (g : Globals) :
  let r := taskPokeOSCLoop_pass connected done g in
  widgets (fst (fst r)) = widgets g
  /\ do_xRemote (fst (fst r)) = do_xRemote g
  /\ existsb isTaskControl (snd r) = false
  /\ existsb isSendSysEx (snd r) = false
  /\ (do_Refresh (fst (fst r)) = true -> do_Refresh g = true)
  /\ (do_xRemote g && connected = true ->
      do_Refresh (fst (fst r)) = false /\ snd (fst r) = false
      /\ existsb isDigitalWrite (snd r) = false).
Proof.
  unfold taskPokeOSCLoop_pass, pokeRenew, pokeRefresh.
  destruct (refreshProbes_no_control (widgets g)) as (P1 & P2 & P3).
  destruct (allLedsOff_no_control (widgets g)) as (A1 & A2).
  destruct (do_xRemote g && connected).
  - destruct (do_Refresh g) eqn:Hr; cbn [fst snd widgets do_xRemote do_Refresh].
    + cbn. rewrite !existsb_app, P1, P2, P3. cbn.
      repeat split; congruence.
    + cbn. rewrite Hr. repeat split; congruence.
  - destruct done; cbn [negb fst snd].
    + cbn. repeat split; congruence.
    + rewrite !existsb_app, A1, A2. cbn. repeat split; congruence.
Qed.

(** X18. The mode follows the position of the mode switch and a change of
    position touches no widget: entering TwoWay raises [do_Refresh] and
    resumes the inbound task only; leaving it suspends and resumes nothing
    and leaves [do_Refresh] as it was. After the switch to OneWay the
    inbound task suspends itself on its next pass, whatever has arrived,
    and the presence task sends nothing. *)
Theorem mode_follows_switch (p : ButtonPoll) (g : Globals) :
  toggled p = true ->
  let g1 := fst (pollModeButton p g) in
  let e1 := snd (pollModeButton p g) in
  widgets g1 = widgets g
  /\ (read p = RELEASED ->
      do_xRemote g1 = true /\ do_Refresh g1 = true
      /\ filter isTaskControl e1 = [TaskResume UDPLoop])
  /\ (read p = PRESSED ->
      do_xRemote g1 = false /\ do_Refresh g1 = do_Refresh g
      /\ filter isTaskControl e1 = []
      /\ (forall (connected : bool) (now : Z) (d : Datagram) (l : UdpLocals),
            fst (taskUDPLoop_pass connected now d l g1) = (g1, l)
            /\ In (TaskSuspend UDPLoop)
                  (snd (taskUDPLoop_pass connected now d l g1)))
      /\ (forall connected done : bool,
            existsb isUdpSend (snd (taskPokeOSCLoop_pass connected done g1))
            = false)).
Proof.
  intros Ht g1 e1. subst g1 e1. unfold pollModeButton. rewrite Ht.
  destruct (read p); cbn [fst snd widgets do_xRemote do_Refresh].
  - split; [reflexivity|]. split; [discriminate|]. intros _.
    split; [reflexivity|]. split; [reflexivity|]. split; [reflexivity|].
    split.
    + intros connected now d l. unfold taskUDPLoop_pass.
      cbn [do_xRemote andb fst snd]. split; [reflexivity|].
      right; right; right; left; reflexivity.
    + intros connected done. unfold taskPokeOSCLoop_pass.
      cbn [do_xRemote andb widgets]. destruct done; cbn [negb snd].
      * reflexivity.
      * rewrite existsb_app, allLedsOff_no_send. reflexivity.
  - split; [reflexivity|]. split; [|discriminate]. intros _.
    split; [reflexivity|]. split; reflexivity.
Qed.

End Sketch.

(** ** The indicator flash and the status task *)

Lemma pinAfter_app (pin : Z) (a b : list Effect) (before : PinLevel) :
  pinAfter pin (a ++ b) before = pinAfter pin b (pinAfter pin a before).
Proof.
  revert before. induction a as [|x a IH]; intros before; [reflexivity|].
  destruct x; cbn [app pinAfter]; apply IH.
Qed.

(** X19. Whatever was written before it, a flash leaves its pin off, also
    the pin of a Toggle whose state is on, and leaves every other pin as it
    was; between its two writes it waits 200 ms in TwoWay mode and 100 ms in
    OneWay mode. *)
Theorem flash_leaves_pin_off (xr : bool) (pin other : Z) (es : list Effect)
    (before : PinLevel) :
  other <> pin ->
  pinAfter pin (es ++ taskLedFlash xr pin) before = LED_PIN_OFF
  /\ pinAfter other (es ++ taskLedFlash xr pin) before = pinAfter other es before
  /\ filter (fun e => negb (isDigitalWrite e)) (taskLedFlash xr pin)
     = [TaskDelay (if xr then 200 else 100)].
Proof.
  intros Hne. rewrite !pinAfter_app. unfold taskLedFlash. cbn [pinAfter].
  rewrite Z.eqb_refl. apply Z.eqb_neq in Hne.
  assert (Hne' : (pin =? other) = false) by (rewrite Z.eqb_sym; exact Hne).
  rewrite Hne'. repeat split.
Qed.

Lemma flipLed_involutive (v : PinLevel) : flipLed (flipLed v) = v.
Proof. now destruct v. Qed.

Lemma wl_status_eqb_eq (a b : wl_status_t) : wl_status_eqb a b = true -> a = b.
Proof. destruct a, b; cbn; congruence. Qed.

Lemma wl_status_eqb_refl (a : wl_status_t) : wl_status_eqb a a = true.
Proof. now destruct a. Qed.

Lemma taskStatusLoop_pass_battery (st : wl_status_t) (lvl : Z) (l : StatusLocals) :
  batteryStatusLed (fst (taskStatusLoop_pass st lvl l))
  = if lvl <? BATTERY_LOW_CUTOFF then flipLed (batteryStatusLed l)
    else LED_PIN_OFF.
Proof.
  unfold taskStatusLoop_pass.
  destruct (wl_status_eqb st WL_CONNECTED); reflexivity.
Qed.

Lemma taskStatusLoop_pass_pins (st : wl_status_t) (lvl : Z) (l : StatusLocals)
    (b : PinLevel) :
  pinAfter PIN_FOR_WIFI_STATUS_LED (snd (taskStatusLoop_pass st lvl l)) b
  = wifiStatusLed (fst (taskStatusLoop_pass st lvl l))
  /\ pinAfter PIN_FOR_BATTERY_STATUS_LED (snd (taskStatusLoop_pass st lvl l)) b
     = batteryStatusLed (fst (taskStatusLoop_pass st lvl l)).
Proof.
  unfold taskStatusLoop_pass.
  destruct (wl_status_eqb st WL_CONNECTED);
    [|destruct (statusChanged st (lastWifiStatus l))];
    cbn [fst snd app pinAfter wifiStatusLed batteryStatusLed];
    split; reflexivity.
Qed.

(** X20. While the battery reads below the cut-off its indicator blinks: it
    changes level on every pass, so after [n] low readings it is where it
    started when [n] is even and flipped when [n] is odd. A single reading
    at or above the cut-off puts it off, whatever it was. *)
Theorem battery_indicator_blinks_when_low (ins : list (wl_status_t * Z))
    (l : StatusLocals) :
  forallb (fun r => snd r <? BATTERY_LOW_CUTOFF) ins = true ->
  batteryStatusLed (fst (taskStatusLoop_run ins l))
  = (if Nat.even (List.length ins) then batteryStatusLed l
     else flipLed (batteryStatusLed l))
  /\ forall (st : wl_status_t) (lvl : Z),
       BATTERY_LOW_CUTOFF <= lvl ->
       batteryStatusLed
         (fst (taskStatusLoop_run (ins ++ [(st, lvl)]) l)) = LED_PIN_OFF.
Proof.
  revert l. induction ins as [|[st0 lvl0] ins IH]; intros l Hlow.
  - split; [reflexivity|]. intros st lvl Hl. cbn [app taskStatusLoop_run].
    pose proof (taskStatusLoop_pass_battery st lvl l) as Hb.
    destruct (taskStatusLoop_pass st lvl l) as [l1 e1]. cbn [fst] in *.
    rewrite Hb. apply Z.ltb_ge in Hl. now rewrite Hl.
  - cbn [forallb snd] in Hlow. apply andb_prop in Hlow as [H0 Hlow].
    cbn [app taskStatusLoop_run List.length].
    pose proof (taskStatusLoop_pass_battery st0 lvl0 l) as Hb.
    rewrite H0 in Hb.
    destruct (taskStatusLoop_pass st0 lvl0 l) as [l1 e1]. cbn [fst] in Hb.
    destruct (IH l1 Hlow) as [IH1 IH2]. split.
    + destruct (taskStatusLoop_run ins l1) as [l2 e2]. cbn [fst] in *.
      rewrite IH1, Hb, Nat.even_succ, <- Nat.negb_even, flipLed_involutive.
      now destruct (Nat.even (List.length ins)).
    + intros st lvl Hl. specialize (IH2 st lvl Hl).
      destruct (taskStatusLoop_run (ins ++ [(st, lvl)]) l1) as [l2 e2].
      exact IH2.
Qed.

(** X21. The WiFi diagnostic is printed when the status changes, not on
    every pass: a pass prints exactly when the link is not connected and
    the status differs from the one remembered, every pass remembers the
    status it saw, and so a pass that sees the status of the pass before
    prints nothing. *)
Theorem wifi_status_printed_on_change (st : wl_status_t) (lvl lvl' : Z)
    (l : StatusLocals) :
  let r := taskStatusLoop_pass st lvl l in
  existsb isSerial (snd r)
  = negb (wl_status_eqb st WL_CONNECTED) && statusChanged st (lastWifiStatus l)
  /\ lastWifiStatus (fst r) = Some st
  /\ existsb isSerial (snd (taskStatusLoop_pass st lvl' (fst r))) = false.
Proof.
  assert (H1 : forall lv l0,
    existsb isSerial (snd (taskStatusLoop_pass st lv l0))
    = negb (wl_status_eqb st WL_CONNECTED) && statusChanged st (lastWifiStatus l0)).
  { intros lv l0. unfold taskStatusLoop_pass.
    destruct (wl_status_eqb st WL_CONNECTED);
      [|destruct (statusChanged st (lastWifiStatus l0))]; reflexivity. }
  assert (H2 : lastWifiStatus (fst (taskStatusLoop_pass st lvl l)) = Some st).
  { unfold taskStatusLoop_pass.
    destruct (statusChanged st (lastWifiStatus l)) eqn:Hc;
      destruct (wl_status_eqb st WL_CONNECTED);
      cbn [fst lastWifiStatus]; try reflexivity;
      unfold statusChanged in Hc; destruct (lastWifiStatus l) as [s|];
      try discriminate Hc; apply negb_false_iff, wl_status_eqb_eq in Hc;
      now subst s. }
  cbv zeta. split; [apply H1|]. split; [exact H2|].
  rewrite H1, H2. unfold statusChanged. rewrite wl_status_eqb_refl.
  apply andb_false_r.
Qed.

(** X22. The two status variables of the task always hold the level last
    written to their pins: after one pass or more, the WiFi and the battery
    status pins are at [wifiStatusLed] and [batteryStatusLed], whatever they
    were before, and a pass that finds the link connected leaves the WiFi
    pin on. *)
Theorem status_pins_follow_locals (ins : list (wl_status_t * Z))
    (l : StatusLocals) (b : PinLevel) :
  ins <> [] ->
  pinAfter PIN_FOR_WIFI_STATUS_LED (snd (taskStatusLoop_run ins l)) b
  = wifiStatusLed (fst (taskStatusLoop_run ins l))
  /\ pinAfter PIN_FOR_BATTERY_STATUS_LED (snd (taskStatusLoop_run ins l)) b
     = batteryStatusLed (fst (taskStatusLoop_run ins l))
  /\ (fst (last ins (WL_CONNECTED, 0)) = WL_CONNECTED ->
      wifiStatusLed (fst (taskStatusLoop_run ins l)) = LED_PIN_ON).
Proof.
  revert l b. induction ins as [|[st lvl] ins IH]; intros l b Hne;
    [now contradiction Hne|].
  cbn [taskStatusLoop_run].
  pose proof (taskStatusLoop_pass_pins st lvl l b) as [Pw Pb].
  assert (Pc : st = WL_CONNECTED ->
               wifiStatusLed (fst (taskStatusLoop_pass st lvl l)) = LED_PIN_ON)
    by (intros ->; reflexivity).
  destruct (taskStatusLoop_pass st lvl l) as [l1 e1]. cbn [fst snd] in Pw, Pb, Pc.
  destruct ins as [|x ins'].
  - cbn [taskStatusLoop_run fst snd last]. rewrite app_nil_r.
    split; [exact Pw|]. split; [exact Pb|exact Pc].
  - assert (Hx : x :: ins' <> []) by discriminate.
    change (last ((st, lvl) :: x :: ins') (WL_CONNECTED, 0))
      with (last (x :: ins') (WL_CONNECTED, 0)).
    destruct (IH l1 (pinAfter PIN_FOR_WIFI_STATUS_LED e1 b) Hx) as (I1 & _ & I3).
    destruct (IH l1 (pinAfter PIN_FOR_BATTERY_STATUS_LED e1 b) Hx) as (_ & I2 & _).
    destruct (taskStatusLoop_run (x :: ins') l1) as [l2 e2].
    cbn [fst snd] in *. rewrite !pinAfter_app.
    split; [exact I1|]. split; [exact I2|exact I3].
Qed.


(** ** Binary floating point: rounding of [SpecFloat] *)

(** ** Digits *)

Lemma digits2_pos_size (p : positive) : digits2_pos p = Pos.size p.
Proof. induction p as [p IH|p IH|]; cbn; now rewrite ?IH. Qed.

Lemma digits2_pos_bounds (p : positive) :
  2 ^ (Zpos (digits2_pos p) - 1) <= Zpos p < 2 ^ Zpos (digits2_pos p).
Proof.
  rewrite digits2_pos_size. split.
  - pose proof (Pos.size_le p) as H.
    assert (H2 : 2 ^ Zpos (Pos.size p) <= 2 * Zpos p).
    { change 2 with (Zpos 2) at 1. rewrite <- Pos2Z.inj_pow.
      change (2 * Zpos p) with (Zpos p~0). now apply Pos2Z.pos_le_pos. }
    replace (Zpos (Pos.size p)) with (Z.succ (Zpos (Pos.size p) - 1)) in H2 by lia.
    rewrite Z.pow_succ_r in H2 by lia. lia.
  - pose proof (Pos.size_gt p) as H.
    change 2 with (Zpos 2). rewrite <- Pos2Z.inj_pow. now apply Pos2Z.pos_lt_pos.
Qed.

Lemma pow2_pos (a : Z) : 0 <= a -> 0 < 2 ^ a.
Proof. intros. now apply Z.pow_pos_nonneg. Qed.

(** The number of digits is the only [d] with [2^(d-1) <= m < 2^d]. *)
Lemma digits2_pos_le (p : positive) (d : Z) :
  Zpos p < 2 ^ d -> Zpos (digits2_pos p) <= d.
Proof.
  intros H. destruct (digits2_pos_bounds p) as [Hlo _].
  destruct (Z.le_gt_cases (Zpos (digits2_pos p)) d) as [|Hgt]; [assumption|].
  assert (0 <= d).
  { destruct (Z.le_gt_cases 0 d); [assumption|].
    rewrite Z.pow_neg_r in H by assumption. lia. }
  assert (2 ^ d <= 2 ^ (Zpos (digits2_pos p) - 1)) by (apply Z.pow_le_mono_r; lia).
  lia.
Qed.

Lemma digits2_pos_ge (p : positive) (d : Z) :
  2 ^ (d - 1) <= Zpos p -> d <= Zpos (digits2_pos p).
Proof.
  intros H. destruct (digits2_pos_bounds p) as [_ Hhi].
  destruct (Z.le_gt_cases d (Zpos (digits2_pos p))) as [|Hgt]; [assumption|].
  assert (2 ^ Zpos (digits2_pos p) <= 2 ^ (d - 1)) by (apply Z.pow_le_mono_r; lia).
  lia.
Qed.



Lemma Pos_iter_xO (m k : positive) :
  Zpos (Pos.iter xO m k) = Zpos m * 2 ^ Zpos k.
Proof.
  induction k as [|k IH] using Pos.peano_ind.
  - cbn. lia.
  - rewrite Pos.iter_succ, Pos2Z.inj_succ, Z.pow_succ_r by lia.
    rewrite Pos2Z.inj_xO, IH. lia.
Qed.

(** ** [shl_align] *)

Lemma shl_align_spec (m : positive) (e e' : Z) :
  e' <= e ->
  Zpos (fst (shl_align m e e')) = Zpos m * 2 ^ (e - e')
  /\ snd (shl_align m e e') = e'.
Proof.
  intros H. unfold shl_align.
  destruct (e' - e) as [|d|d] eqn:Hd; try lia.
  - assert (e = e') by lia. subst. cbn [fst snd]. rewrite Z.sub_diag. cbn. lia.
  - cbn [fst snd]. rewrite Pos_iter_xO. replace (e - e') with (Zpos d) by lia.
    tauto.
Qed.

Lemma shl_align_id (m : positive) (e e' : Z) :
  e <= e' -> shl_align m e e' = (m, e).
Proof.
  intros H. unfold shl_align. destruct (e' - e) eqn:Hd; try reflexivity. lia.
Qed.

(** ** [shr] *)

Lemma iter_pos_nat {A : Type} (f : A -> A) (p : positive) (x : A) :
  SpecFloat.iter_pos f p x = Nat.iter (Pos.to_nat p) f x.
Proof.
  revert x. induction p as [p IH|p IH|]; intros x; cbn [SpecFloat.iter_pos].
  - rewrite !IH, Pos2Nat.inj_xI.
    replace (S (2 * Pos.to_nat p)) with (Pos.to_nat p + (Pos.to_nat p + 1))%nat by lia.
    now rewrite !Nat.iter_add.
  - rewrite !IH, Pos2Nat.inj_xO.
    replace (2 * Pos.to_nat p)%nat with (Pos.to_nat p + Pos.to_nat p)%nat by lia.
    now rewrite Nat.iter_add.
  - reflexivity.
Qed.

Lemma shr_1_spec (m : Z) (r s : bool) :
  0 <= m ->
  shr_1 (Build_shr_record m r s) = Build_shr_record (Z.div2 m) (Z.odd m) (r || s).
Proof.
  intros H. destruct m as [|[p|p|]|p]; try reflexivity. lia.
Qed.

(** After [n + 1] one-bit shifts: the quotient by [2^(n+1)], and the bit
    shifted out last in [shr_r]. *)
Lemma shr_nat_spec (M : Z) (n : nat) :
  0 <= M ->
  shr_m (Nat.iter (S n) shr_1 (Build_shr_record M false false)) = M / 2 ^ Z.of_nat (S n)
  /\ shr_r (Nat.iter (S n) shr_1 (Build_shr_record M false false))
     = Z.testbit M (Z.of_nat n).
Proof.
  intros HM. induction n as [|n [IHm IHr]].
  - cbn [Nat.iter]. rewrite shr_1_spec by assumption. cbn [shr_m shr_r].
    rewrite Z.div2_div, Z.bit0_odd. split; reflexivity.
  - rewrite Nat.iter_succ.
    destruct (Nat.iter (S n) shr_1 (Build_shr_record M false false)) as [m r s].
    cbn [shr_m shr_r] in IHm, IHr.
    assert (0 <= m) by (subst m; apply Z.div_pos; [assumption|apply pow2_pos; lia]).
    rewrite shr_1_spec by assumption. cbn [shr_m shr_r]. subst m. split.
    + rewrite Z.div2_div, Z.div_div by (try apply pow2_pos; lia).
      f_equal. rewrite (Nat2Z.inj_succ (S n)), Z.pow_succ_r by lia. lia.
    + rewrite Z.testbit_odd, Z.shiftr_div_pow2 by lia. reflexivity.
Qed.

(** A right shift by [k] of an exact, non-negative mantissa. *)
Lemma shr_spec (M e k : Z) :
  0 <= M ->
  let r := shr (Build_shr_record M false false) e k in
  snd r = e + Z.max 0 k
  /\ shr_m (fst r) = M / 2 ^ Z.max 0 k
  /\ (shr_r (fst r) = true -> 0 < k /\ Z.testbit M (k - 1) = true).
Proof.
  intros HM. unfold shr. destruct k as [|p|p]; cbn [fst snd shr_m shr_r Z.max].
  - rewrite Z.add_0_r, Z.pow_0_r, Z.div_1_r. repeat split; discriminate.
  - rewrite iter_pos_nat.
    destruct (Pos2Nat.is_succ p) as [n Hn]. rewrite Hn.
    destruct (shr_nat_spec M n HM) as [Hm Hr]. rewrite Hm, Hr.
    assert (Hp : Zpos p = Z.of_nat (S n)) by (rewrite <- Hn; now rewrite positive_nat_Z).
    replace (Z.max 0 (Zpos p)) with (Zpos p) by lia.
    rewrite Hp. repeat split; try lia.
    replace (Z.of_nat (S n) - 1) with (Z.of_nat n) by lia. assumption.
  - rewrite Z.add_0_r. replace (Z.max 0 (Zneg p)) with 0 by lia.
    rewrite Z.pow_0_r, Z.div_1_r. repeat split; discriminate.
Qed.

Lemma round_nearest_even_cases (mrs : shr_record) :
  let q := round_nearest_even (shr_m mrs) (loc_of_shr_record mrs) in
  q = shr_m mrs \/ (q = shr_m mrs + 1 /\ shr_r mrs = true).
Proof.
  destruct mrs as [m [|] [|]]; cbn; try tauto.
  destruct (Z.even m); tauto.
Qed.

Section Round.
Variables prec emax : Z.

(** The rounding of an exact mantissa: the first shift keeps [q], the
    quotient or, when the highest dropped bit is set, possibly its
    successor; the second shift renormalises [q]. *)
Lemma binary_round_aux_cases (s : bool) (M : positive) (E : Z) :
  let k1 := fexp prec emax (Zpos (digits2_pos M) + E) - E in
  exists q : Z,
    (q = Zpos M / 2 ^ Z.max 0 k1
     \/ (q = Zpos M / 2 ^ Z.max 0 k1 + 1 /\ 0 < k1
         /\ Z.testbit (Zpos M) (k1 - 1) = true))
    /\ let e1 := E + Z.max 0 k1 in
       let k2 := fexp prec emax (Zdigits2 q + e1) - e1 in
       binary_round_aux prec emax s (Zpos M) E loc_Exact =
       match q / 2 ^ Z.max 0 k2 with
       | Z0 => S754_zero s
       | Zpos m =>
           if e1 + Z.max 0 k2 <=? emax - prec
           then S754_finite s m (e1 + Z.max 0 k2) else S754_infinity s
       | Zneg _ => S754_nan
       end.
Proof.
  intros k1. unfold binary_round_aux, shr_fexp.
  cbn [shr_record_of_loc Zdigits2]. fold k1.
  pose proof (shr_spec (Zpos M) E k1 ltac:(lia)) as H1. cbv zeta in H1.
  destruct (shr (Build_shr_record (Zpos M) false false) E k1) as [mrs1 e1].
  cbn [fst snd] in H1. destruct H1 as (He1 & Hm1 & Hr1).
  pose proof (round_nearest_even_cases mrs1) as Hq. cbv zeta in Hq.
  set (q := round_nearest_even (shr_m mrs1) (loc_of_shr_record mrs1)) in *.
  exists q. split.
  - rewrite <- Hm1. destruct Hq as [Hq|[Hq Hr]]; [now left|right].
    split; [assumption|]. now apply Hr1.
  - cbv zeta. rewrite <- He1.
    assert (Hq0 : 0 <= q).
    { assert (0 <= shr_m mrs1)
        by (rewrite Hm1; apply Z.div_pos; [lia|apply pow2_pos; lia]).
      destruct Hq as [->|[-> _]]; lia. }
    pose proof (shr_spec q e1 (fexp prec emax (Zdigits2 q + e1) - e1) Hq0) as H2.
    cbv zeta in H2.
    destruct (shr (Build_shr_record q false false) e1
                (fexp prec emax (Zdigits2 q + e1) - e1)) as [mrs2 e2].
    cbn [fst snd] in H2. destruct H2 as (He2 & Hm2 & _).
    rewrite Hm2, He2. reflexivity.
Qed.

End Round.

(** An exactly representable value is rounded to itself. *)
Lemma binary_round_exact (prec emax : Z) (s : bool) (m : positive) (e : Z) :
  let fe := fexp prec emax (Zpos (digits2_pos m) + e) in
  fe <= e -> fe <= emax - prec ->
  exists m' : positive,
    binary_round prec emax s m e = S754_finite s m' fe
    /\ Zpos m' = Zpos m * 2 ^ (e - fe)
    /\ Zpos (digits2_pos m') = Zpos (digits2_pos m) + (e - fe).
Proof.
  intros fe Hfe Hmax. unfold binary_round. fold fe.
  destruct (shl_align_spec m e fe Hfe) as [Hm He].
  destruct (shl_align m e fe) as [m' e']. cbn [fst snd] in Hm, He. subst e'.
  assert (Hd : Zpos (digits2_pos m') = Zpos (digits2_pos m) + (e - fe)).
  { destruct (digits2_pos_bounds m) as [Hlo Hhi].
    apply Z.le_antisymm.
    - apply digits2_pos_le. rewrite Hm, Z.pow_add_r by lia.
      apply Z.mul_lt_mono_pos_r; [apply pow2_pos; lia|assumption].
    - apply digits2_pos_ge. rewrite Hm.
      replace (Zpos (digits2_pos m) + (e - fe) - 1)
        with ((Zpos (digits2_pos m) - 1) + (e - fe)) by lia.
      rewrite Z.pow_add_r by lia.
      apply Z.mul_le_mono_nonneg_r; [apply Z.lt_le_incl, pow2_pos; lia|assumption]. }
  exists m'. split; [|split; assumption].
  destruct (binary_round_aux_cases prec emax s m' fe) as (q & Hq & Hr).
  cbv zeta in Hr.
  assert (Hk1 : fexp prec emax (Zpos (digits2_pos m') + fe) - fe = 0).
  { rewrite Hd. replace (Zpos (digits2_pos m) + (e - fe) + fe)
      with (Zpos (digits2_pos m) + e) by lia. fold fe. lia. }
  rewrite Hk1 in Hq, Hr. cbn [Z.max] in Hq, Hr.
  rewrite Z.pow_0_r, Z.div_1_r in Hq.
  destruct Hq as [->|[_ [Hlt _]]]; [|lia].
  rewrite Z.add_0_r in Hr. cbn [Zdigits2] in Hr. rewrite Hk1 in Hr.
  cbn [Z.max] in Hr. rewrite Z.pow_0_r, Z.div_1_r, Z.add_0_r in Hr.
  rewrite Hr. destruct (Z.leb_spec fe (emax - prec)); [reflexivity|lia].
Qed.

(** ** The fader text *)

Lemma fexp53 (x : Z) : -1021 <= x -> fexp 53 1024 x = x - 53.
Proof. intros H. unfold fexp, emin. lia. Qed.

Lemma testbit_multiple (a k : Z) :
  0 < k -> Z.testbit (a * 2 ^ k) (k - 1) = false.
Proof. intros H. apply Z.mul_pow2_bits_low. lia. Qed.

Lemma pow2_split (x y : Z) : 0 <= y <= x -> 2 ^ x = 2 ^ (x - y) * 2 ^ y.
Proof. intros H. rewrite <- Z.pow_add_r by lia. f_equal. lia. Qed.

(** [(int)(p + 0.5)] for a product [p] of the shape of [small_f32]: the
    double sum is rounded, but never across an integer, so the truncation is
    the integer part of the real sum. *)
Lemma add_half_trunc (mp : positive) (ep : Z) :
  Zpos (digits2_pos mp) <= 24 -> -149 <= ep <= -17 ->
  Zpos mp <= 127 * 2 ^ (- ep) ->
  int_of_f64 (f64_add (f64_of_f32 (S754_finite false mp ep)) f64_half)
    = Some ((2 * Zpos mp + 2 ^ (- ep)) / 2 ^ (1 - ep))
  /\ 0 <= (2 * Zpos mp + 2 ^ (- ep)) / 2 ^ (1 - ep) <= 127.
Proof.
  intros Hdp Hep Hval.
  pose proof (digits2_pos_bounds mp) as [Hmlo Hmhi].
  set (dp := Zpos (digits2_pos mp)) in *.
  assert (Hdp1 : 1 <= dp) by (unfold dp; lia).
  (* the promotion to double *)
  unfold f64_of_f32.
  destruct (binary_round_exact 53 1024 false mp ep) as (md & -> & Hmd & Hdd);
    fold dp; rewrite ?fexp53 by lia; try lia.
  fold dp in Hmd, Hdd. rewrite fexp53 in Hmd, Hdd by lia.
  set (ed := dp + ep - 53) in *.
  (* the sum, on the common exponent *)
  unfold f64_add, SFadd, f64_half. cbn [cond_Zopp].
  set (ez := Z.min ed (-53)).
  destruct (shl_align_spec md ed ez ltac:(lia)) as [Hs1 _].
  destruct (shl_align_spec 4503599627370496 (-53) ez ltac:(lia)) as [Hs2 _].
  set (A := - ez). set (a := - ep).
  assert (HA : 53 <= A /\ a + 29 <= A) by lia.
  assert (HS : Zpos (fst (shl_align md ed ez))
               + Zpos (fst (shl_align 4503599627370496 (-53) ez))
               = Zpos mp * 2 ^ (A - a) + 2 ^ (A - 1)).
  { rewrite Hs1, Hs2, Hmd, <- Z.mul_assoc.
    rewrite <- (Z.pow_add_r 2 (ep - ed) (ed - ez)) by lia.
    change 4503599627370496 with (2 ^ 52).
    rewrite <- (Z.pow_add_r 2 52 (-53 - ez)) by lia.
    replace (ep - ed + (ed - ez)) with (A - a) by lia.
    replace (52 + (-53 - ez)) with (A - 1) by lia. reflexivity. }
  clear Hs1 Hs2.
  set (S := Zpos (fst (shl_align md ed ez))
            + Zpos (fst (shl_align 4503599627370496 (-53) ez))) in *.
  assert (HS0 : 0 < S) by (unfold S; lia).
  destruct S as [|Sp|Sp]; try lia. clear HS0.
  cbn [binary_normalize]. unfold binary_round.
  pose proof (digits2_pos_bounds Sp) as [HSlo HShi].
  set (dS := Zpos (digits2_pos Sp)) in *.
  (* magnitude of the sum *)
  assert (Hpa : 0 < 2 ^ (A - a)) by (apply pow2_pos; lia).
  assert (HpA : 2 ^ A = 2 * 2 ^ (A - 1)).
  { rewrite <- Z.pow_succ_r by lia. f_equal. lia. }
  assert (Hpaa : 2 ^ A = 2 ^ a * 2 ^ (A - a)).
  { rewrite <- Z.pow_add_r by lia. f_equal. lia. }
  assert (HpA1 : 0 < 2 ^ (A - 1)) by (apply pow2_pos; lia).
  assert (HSup : Zpos Sp < 128 * 2 ^ A).
  { rewrite HS. fold a in Hval. nia. }
  assert (HdSlo : A <= dS).
  { apply digits2_pos_ge. rewrite HS. nia. }
  assert (HdShi : dS <= A + 7).
  { apply digits2_pos_le. rewrite Z.pow_add_r by lia. change (2 ^ 7) with 128. lia. }
  rewrite shl_align_id by (rewrite fexp53 by lia; lia).
  destruct (binary_round_aux_cases 53 1024 false Sp ez) as (q & Hq & Hr).
  cbv zeta in Hr. fold dS in Hq, Hr. rewrite (fexp53 (dS + ez)) in Hq, Hr by lia.
  replace (dS + ez - 53 - ez) with (dS - 53) in Hq, Hr by lia.
  replace (Z.max 0 (dS - 53)) with (dS - 53) in Hq, Hr by lia.
  set (k1 := dS - 53) in *.
  set (K := Zpos Sp / 2 ^ A).
  set (P := 2 ^ (A - k1)).
  assert (HP : 0 < P) by (apply pow2_pos; lia).
  assert (Hk : 0 < 2 ^ k1) by (apply pow2_pos; lia).
  assert (HAs : 2 ^ A = P * 2 ^ k1) by (apply pow2_split; lia).
  assert (HA0 : 0 < 2 ^ A) by (apply pow2_pos; lia).
  assert (HKlo : 2 ^ A * K <= Zpos Sp) by (apply Z.mul_div_le; lia).
  assert (HKhi : Zpos Sp < 2 ^ A * Z.succ K) by (apply Z.mul_succ_div_gt; lia).
  assert (HK0 : 0 <= K) by (apply Z.div_pos; lia).
  assert (HK127 : K <= 127) by nia.
  assert (Hdlo : K * P <= Zpos Sp / 2 ^ k1)
    by (apply Z.div_le_lower_bound; [lia|nia]).
  assert (Hdhi : Zpos Sp / 2 ^ k1 < (K + 1) * P)
    by (apply Z.div_lt_upper_bound; [lia|nia]).
  assert (Hq1 : K * P <= q) by (destruct Hq as [->|[-> _]]; lia).
  assert (Hq2 : q < (K + 1) * P).
  { destruct Hq as [->|(-> & Hk1 & Hbit)]; [assumption|].
    destruct (Z.le_gt_cases k1 (A - a)) as [Hc|Hc].
    - (* the sum is a multiple of [2^k1]: nothing is rounded *)
      exfalso.
      assert (Hmul : Zpos Sp = (Zpos mp * 2 ^ (A - a - k1) + 2 ^ (A - 1 - k1)) * 2 ^ k1).
      { rewrite HS, (pow2_split (A - a) k1), (pow2_split (A - 1) k1) by lia.
        replace (A - 1 - k1) with (A - 1 - k1) by lia. ring. }
      rewrite Hmul, testbit_multiple in Hbit by assumption. discriminate.
    - (* a tiny product: the sum stays next to one half *)
      assert (H24 : Zpos mp < 2 ^ 24).
      { apply Z.lt_le_trans with (1 := Hmhi). apply Z.pow_le_mono_r; lia. }
      assert (Ha : 54 <= a).
      { destruct (Z.le_gt_cases 54 a) as [|Hlt]; [assumption|exfalso].
        assert (H1 : 2 ^ (A - a + 53) <= 2 ^ (dS - 1)) by (apply Z.pow_le_mono_r; lia).
        assert (H2 : 2 ^ (A - 1) <= 2 ^ (A - a + 52)) by (apply Z.pow_le_mono_r; lia).
        rewrite (Z.pow_add_r 2 (A - a) 53) in H1 by lia.
        rewrite (Z.pow_add_r 2 (A - a) 52) in H2 by lia.
        change (2 ^ 53) with 9007199254740992 in H1.
        change (2 ^ 52) with 4503599627370496 in H2.
        change (2 ^ 24) with 16777216 in H24. nia. }
      assert (H30 : 2 ^ (A - a) * 2 ^ 24 <= 2 ^ (A - 30)).
      { rewrite <- Z.pow_add_r by lia. apply Z.pow_le_mono_r; lia. }
      assert (HA30 : 2 ^ (A - 1) = 2 ^ 29 * 2 ^ (A - 30)).
      { rewrite <- Z.pow_add_r by lia. f_equal. lia. }
      assert (H30p : 0 < 2 ^ (A - 30)) by (apply pow2_pos; lia).
      change (2 ^ 29) with 536870912 in HA30.
      assert (HSA : Zpos Sp < 2 ^ A) by nia.
      assert (HdS : dS = A) by (apply Z.le_antisymm; [apply digits2_pos_le|]; assumption).
      assert (HK : K = 0) by (apply Z.div_small; lia).
      assert (HP53 : P = 2 ^ 53) by (unfold P, k1; f_equal; lia).
      assert (Hk30 : 2 ^ (A - 30) = 2 ^ 23 * 2 ^ k1).
      { rewrite <- Z.pow_add_r by lia. f_equal. lia. }
      assert (Hd : Zpos Sp / 2 ^ k1 < 2 ^ 23 + 2 ^ 52).
      { apply Z.div_lt_upper_bound; [lia|].
        change (2 ^ 23) with 8388608 in *. change (2 ^ 52) with 4503599627370496.
        change (2 ^ 24) with 16777216 in *. nia. }
      rewrite HK, HP53. change (2 ^ 53) with 9007199254740992.
      change (2 ^ 23) with 8388608 in Hd. change (2 ^ 52) with 4503599627370496 in Hd.
      lia. }
  (* the rounded mantissa has 53 digits: it is the result *)
  assert (H52 : 2 ^ (dS - 1) = 2 ^ 52 * 2 ^ k1).
  { rewrite <- Z.pow_add_r by lia. f_equal. lia. }
  assert (Hq52 : 2 ^ 52 <= q).
  { assert (2 ^ 52 <= Zpos Sp / 2 ^ k1)
      by (apply Z.div_le_lower_bound; [lia|rewrite Z.mul_comm, <- H52; assumption]).
    destruct Hq as [->|[-> _]]; lia. }
  assert (Hq53 : q < 2 ^ 53).
  { assert (HdA : 2 ^ dS = 2 ^ (dS - A) * 2 ^ A) by (apply pow2_split; lia).
    assert (HK1 : K < 2 ^ (dS - A))
      by (apply Z.div_lt_upper_bound; [lia|rewrite Z.mul_comm, <- HdA; assumption]).
    assert (H53 : 2 ^ 53 = 2 ^ (dS - A) * P).
    { unfold P. rewrite <- Z.pow_add_r by lia. f_equal. lia. }
    rewrite H53. nia. }
  change (2 ^ 52) with 4503599627370496 in Hq52.
  destruct q as [|qp|qp]; try lia.
  assert (Hdq : Zpos (digits2_pos qp) <= 53) by (now apply digits2_pos_le).
  cbn [Zdigits2] in Hr.
  rewrite fexp53 in Hr by lia.
  replace (Z.max 0 (Zpos (digits2_pos qp) + (ez + k1) - 53 - (ez + k1))) with 0
    in Hr by lia.
  rewrite Z.pow_0_r, Z.div_1_r, Z.add_0_r in Hr.
  destruct (Z.leb_spec (ez + k1) (1024 - 53)) as [_|Hbad]; [|lia].
  rewrite Hr. clear Hr.
  assert (HKq : Zpos qp / P = K).
  { symmetry. apply Z.div_unique with (r := Zpos qp - K * P); lia. }
  assert (HKeq : K = (2 * Zpos mp + 2 ^ a) / 2 ^ (1 - ep)).
  { unfold K. rewrite HS.
    replace (1 - ep) with (a + 1) by lia.
    rewrite (pow2_split A (A - a - 1)) by lia.
    replace (A - (A - a - 1)) with (a + 1) by lia.
    replace (Zpos mp * 2 ^ (A - a) + 2 ^ (A - 1))
      with ((2 * Zpos mp + 2 ^ a) * 2 ^ (A - a - 1)).
    - apply Z.div_mul_cancel_r.
      + apply Z.neq_sym, Z.lt_neq, pow2_pos. lia.
      + apply Z.neq_sym, Z.lt_neq, pow2_pos. lia.
    - rewrite (pow2_split (A - a) (A - a - 1)), (pow2_split (A - 1) (A - a - 1)) by lia.
      replace (A - a - (A - a - 1)) with 1 by lia.
      replace (A - 1 - (A - a - 1)) with a by lia. change (2 ^ 1) with 2. ring. }
  rewrite <- HKeq. split; [|lia].
  unfold int_of_f64.
  assert (He : ez + k1 = - (A - k1)) by lia.
  destruct (ez + k1) as [|e|e] eqn:Hez; try lia.
  rewrite Z.shiftr_div_pow2 by lia.
  replace (Zpos e) with (A - k1) by lia. fold P. rewrite HKq.
  cbn [cond_Zopp].
  destruct (Z.leb_spec (- 2 ^ 31) K); [|lia].
  destruct (Z.ltb_spec K (2 ^ 31)); [reflexivity|lia].
Qed.

Lemma fexp24 (x : Z) : fexp 24 128 x = Z.max (x - 24) (-149).
Proof. reflexivity. Qed.

(** A valid binary32 value between 0 and 1: a zero, or a positive mantissa
    and an exponent with [m * 2^e <= 1]. *)
Lemma unit_interval_f32 (v : float32) :
  valid_binary 24 128 v = true ->
  SFleb (S754_zero false) v = true -> SFleb v f32_one = true ->
  (exists s, v = S754_zero s)
  \/ exists mv ev, v = S754_finite false mv ev
       /\ -149 <= ev <= -23 /\ Zpos mv <= 2 ^ (- ev).
Proof.
  intros Hv H0 H1. destruct v as [s|[|]| |[|] mv ev]; try discriminate.
  - left. now exists s.
  - right. exists mv, ev. split; [reflexivity|].
    cbn [valid_binary] in Hv. unfold bounded, canonical_mantissa in Hv.
    apply andb_prop in Hv as [Hc _]. apply Z.eqb_eq in Hc. rewrite fexp24 in Hc.
    pose proof (digits2_pos_bounds mv) as [_ Hhi].
    set (dv := Zpos (digits2_pos mv)) in *.
    unfold SFleb, SFcompare, f32_one in H1.
    change (f32_of_int 1) with (S754_finite false 8388608 (-23)) in H1. cbv iota beta in H1.
    destruct (Z.compare_spec ev (-23)) as [He|He|He]; try discriminate.
    + subst ev. split; [lia|]. change (2 ^ (- -23)) with 8388608.
      change (PosDef.Pos.compare_cont Eq mv 8388608) with (Pos.compare mv 8388608) in H1.
      destruct (Pos.compare_spec mv 8388608) as [Hm|Hm|Hm]; try discriminate; lia.
    + split; [lia|].
      assert (2 ^ dv <= 2 ^ (- ev)) by (apply Z.pow_le_mono_r; lia). lia.
Qed.

(** The single-precision product with 127 stays at or below 127: rounding
    to nearest cannot cross a representable bound. *)
Lemma mul127_small (v : float32) :
  valid_binary 24 128 v = true ->
  SFleb (S754_zero false) v = true -> SFleb v f32_one = true ->
  small_f32 (f32_mul v (f32_of_int 127)).
Proof.
  intros Hv H0 H1.
  destruct (unit_interval_f32 v Hv H0 H1) as [[s ->]|(mv & ev & -> & Hev & Hmv)].
  - exact I.
  - change (f32_of_int 127) with (S754_finite false 16646144 (-17)).
    unfold f32_mul, SFmul. cbn [xorb].
    set (M := (mv * 16646144)%positive).
    set (E := ev + -17).
    assert (HM : Zpos M = Zpos mv * (127 * 2 ^ 17)) by (unfold M; lia).
    assert (HpE : 2 ^ (- E) = 2 ^ 17 * 2 ^ (- ev)).
    { rewrite <- Z.pow_add_r by lia. f_equal. lia. }
    assert (Hpev : 0 < 2 ^ (- ev)) by (apply pow2_pos; lia).
    assert (HMv : Zpos M <= 127 * 2 ^ (- E)) by (change (2 ^ 17) with 131072 in *; nia).
    pose proof (digits2_pos_bounds M) as [HMlo HMhi].
    set (dM := Zpos (digits2_pos M)) in *.
    assert (HdM : dM <= 7 - E).
    { apply digits2_pos_le. rewrite (pow2_split (7 - E) (- E)) by lia.
      replace (7 - E - - E) with 7 by lia. change (2 ^ 7) with 128. lia. }
    destruct (binary_round_aux_cases 24 128 false M E) as (q & Hq & Hr).
    cbv zeta in Hr. fold dM in Hq, Hr. rewrite Hr. clear Hr.
    rewrite !fexp24 in *.
    set (k1 := Z.max 0 (Z.max (dM + E - 24) (-149) - E)) in *.
    set (e1 := E + k1).
    assert (He1 : -149 <= e1 <= -17) by lia.
    assert (Hk1 : 0 <= k1) by lia.
    assert (Hpk : 0 < 2 ^ k1) by (apply pow2_pos; lia).
    assert (Hpe1 : 2 ^ (- E) = 2 ^ (- e1) * 2 ^ k1).
    { rewrite <- Z.pow_add_r by lia. f_equal. lia. }
    assert (Hpe1' : 0 < 2 ^ (- e1)) by (apply pow2_pos; lia).
    assert (Hq0 : 0 <= q).
    { assert (0 <= Zpos M / 2 ^ k1) by (apply Z.div_pos; lia).
      destruct Hq as [->|[-> _]]; lia. }
    assert (Hq127 : q <= 127 * 2 ^ (- e1)).
    { assert (Hd : Zpos M / 2 ^ k1 <= 127 * 2 ^ (- e1)).
      { apply Z.div_le_upper_bound; [lia|]. nia. }
      destruct Hq as [->|(-> & Hk & Hbit)]; [assumption|].
      destruct (Z.eq_dec (Zpos M / 2 ^ k1) (127 * 2 ^ (- e1))) as [Heq|]; [|lia].
      exfalso.
      assert (Hk1' : k1 = Z.max (dM + E - 24) (-149) - E) by lia.
      rewrite <- Hk1' in Hbit.
      assert (HMeq : Zpos M = 127 * 2 ^ (- e1) * 2 ^ k1).
      { pose proof (Z.mul_div_le (Zpos M) (2 ^ k1) Hpk). nia. }
      rewrite HMeq, testbit_multiple in Hbit by lia. discriminate. }
    set (k2 := Z.max 0 (Z.max (Zdigits2 q + e1 - 24) (-149) - e1)).
    assert (Hk2 : 0 <= k2) by lia.
    assert (Hpk2 : 0 < 2 ^ k2) by (apply pow2_pos; lia).
    destruct (q / 2 ^ k2) as [|m|m] eqn:Hm.
    + exact I.
    + assert (Hqpos : 0 < q).
      { destruct (Z.eq_dec q 0) as [->|]; [|lia]. rewrite Z.div_0_l in Hm; lia. }
      destruct q as [|qp|qp]; try lia. cbn [Zdigits2] in *.
      pose proof (digits2_pos_bounds qp) as [Hqlo Hqhi].
      set (dq := Zpos (digits2_pos qp)) in *.
      assert (Hdq : dq <= 7 - e1).
      { apply digits2_pos_le. rewrite (pow2_split (7 - e1) (- e1)) by lia.
        replace (7 - e1 - - e1) with 7 by lia. change (2 ^ 7) with 128. lia. }
      assert (He2 : -149 <= e1 + k2 <= -17) by lia.
      destruct (Z.leb_spec (e1 + k2) (128 - 24)); [|lia].
      cbn [small_f32]. split; [|split; [assumption|]].
      * apply digits2_pos_le. rewrite <- Hm.
        apply Z.div_lt_upper_bound; [lia|].
        apply Z.lt_le_trans with (1 := Hqhi).
        rewrite <- Z.pow_add_r by lia. apply Z.pow_le_mono_r; lia.
      * rewrite <- Hm. apply Z.div_le_upper_bound; [lia|].
        assert (Hp2 : 2 ^ (- e1) = 2 ^ k2 * 2 ^ (- (e1 + k2))).
        { rewrite <- Z.pow_add_r by lia. f_equal. lia. }
        nia.
    + assert (0 <= q / 2 ^ k2) by (apply Z.div_pos; lia). lia.
Qed.

Lemma itoa_fits (n : Z) :
  0 <= n <= 127 ->
  (String.length (itoa n) + 1 <=? stringNumber_size)%nat = true.
Proof.
  intros Hn.
  assert (H : forallb (fun k => (String.length (itoa (Z.of_nat k)) + 1
                                 <=? stringNumber_size)%nat)
                (seq 0 128) = true) by (vm_compute; reflexivity).
  rewrite forallb_forall in H. specialize (H (Z.to_nat n)).
  rewrite Z2Nat.id in H by lia. apply H, in_seq. lia.
Qed.

(** On the products at hand, [spec_round] is a division of integers. *)
Lemma spec_round_small (p : float32) :
  small_f32 p ->
  spec_round (SF2Q p)
  = match p with
    | S754_finite _ mp ep => (2 * Zpos mp + 2 ^ (- ep)) / 2 ^ (1 - ep)
    | _ => 0
    end.
Proof.
  destruct p as [s|s| |[|] mp ep]; cbn [small_f32];
    try contradiction; [reflexivity|].
  intros (_ & Hep & _). destruct ep as [|k|k]; try lia.
  unfold SF2Q, spec_round, Qle_bool, Qplus, Qfloor. cbn [cond_Zopp Qnum Qden].
  destruct (Z.leb_spec (0 * Zpos (2 ^ k)) (Zpos mp * 1)); [|lia].
  rewrite Pos2Z.inj_mul, Pos2Z.inj_pow.
  change (- Zneg k) with (Zpos k). replace (1 - Zneg k) with (Zpos k + 1) by lia.
  rewrite Z.pow_add_r by lia. change (2 ^ 1) with 2.
  f_equal. lia.
Qed.

(** C7 (amended). For a Fader widget whose scalar [v] is a binary32 value
    of the unit interval, the text framed for the serial bus is the decimal
    rendering of [round p], where [p] is the product [v * 127] rounded to
    single precision, as the sketch computes it; the number lies between 0
    and 127 and its text fits [stringNumber]. In particular 0.75 gives 95,
    0.0 gives 0 and 1.0 gives 127. *)
Theorem fader_payload_rounds (past_midiSpacer past_midiFooter : string)
    (v : float32) :
  valid_binary 24 128 v = true ->
  SFleb (S754_zero false) v = true ->
  SFleb v f32_one = true ->
  let n := spec_round (SF2Q (f32_mul v (f32_of_int 127))) in
  0 <= n <= 127
  /\ faderInt v = Some n
  /\ faderText v = Some (itoa n)
  /\ (forall (xr : bool) (w w1 : OSCWidget) (effs : list Effect),
        isOscToggle w = false -> oscPayload_f w = v ->
        dispatch past_midiSpacer past_midiFooter xr w = Some (w1, effs) ->
        oscPayload_s w1 = itoa n
        /\ In (UdpSend (oscAddress w) [OscFloat v]) effs
        /\ In (SendSysEx (c_str midiHeader ++ oscAddress w
                          ++ c_str (midiSpacer ++ past_midiSpacer)
                          ++ itoa n
                          ++ c_str (midiFooter ++ past_midiFooter))%string) effs)
  /\ (SF2Q f32_three_quarters == Qmake 3 4)%Q
  /\ faderText f32_three_quarters = Some "95"
  /\ faderText (S754_zero false) = Some "0"
  /\ (SF2Q f32_one == 1)%Q
  /\ faderText f32_one = Some "127".
Proof.
  intros Hv H0 H1 n.
  pose proof (mul127_small v Hv H0 H1) as Hs.
  pose proof (spec_round_small _ Hs) as Hn. fold n in Hn.
  assert (Hint : faderInt v = Some n /\ 0 <= n <= 127).
  { unfold faderInt.
    destruct (f32_mul v (f32_of_int 127)) as [s| | |[|] mp ep];
      cbn [small_f32] in Hs; try tauto.
    - rewrite Hn. split; [reflexivity|lia].
    - destruct Hs as (Hd & He & Hm). rewrite Hn.
      now apply add_half_trunc. }
  destruct Hint as [Hint Hrange].
  assert (Htext : faderText v = Some (itoa n)).
  { unfold faderText. rewrite Hint. now rewrite itoa_fits. }
  split; [exact Hrange|]. split; [exact Hint|]. split; [exact Htext|].
  split; [|repeat split; vm_compute; reflexivity].
  intros xr w w1 effs Ht Hf Hd.
  destruct (dispatch_effects _ _ _ _ _ _ Hd) as (args & frame & Hc & Hm & ->).
  unfold composeMessage in Hc. rewrite Ht, Hf in Hc.
  unfold f32_ge0 in Hc. rewrite H0, Htext in Hc. injection Hc as <- <-.
  cbn [oscPayload_s set_oscPayload_s] in *.
  apply midiBuildCommand_Some in Hm as [-> _].
  split; [reflexivity|]. split; [now left|].
  apply in_cons, in_or_app. right. now left.
Qed.

(** ** Every dispatch in range is defined *)

(** The text of a fader in the unit interval: at most three digits. *)
Lemma faderText_unit_interval (v : float32) :
  valid_binary 24 128 v = true ->
  SFleb (S754_zero false) v = true ->
  SFleb v f32_one = true ->
  exists n : Z,
    faderText v = Some (itoa n) /\ (String.length (itoa n) <= 3)%nat.
Proof.
  intros Hv H0 H1.
  pose proof (mul127_small v Hv H0 H1) as Hs.
  pose proof (spec_round_small _ Hs) as Hn.
  exists (spec_round (SF2Q (f32_mul v (f32_of_int 127)))).
  assert (Hint : faderInt v = Some (spec_round (SF2Q (f32_mul v (f32_of_int 127))))
                 /\ 0 <= spec_round (SF2Q (f32_mul v (f32_of_int 127))) <= 127).
  { unfold faderInt.
    destruct (f32_mul v (f32_of_int 127)) as [s| | |[|] mp ep];
      cbn [small_f32] in Hs; try contradiction.
    - rewrite Hn. split; [reflexivity|lia].
    - destruct Hs as (Hd & He & Hm). rewrite Hn.
      now apply add_half_trunc. }
  destruct Hint as [Hint Hrange].
  pose proof (itoa_fits _ Hrange) as Hfit.
  split.
  - unfold faderText. rewrite Hint. now rewrite Hfit.
  - apply Nat.leb_le in Hfit. unfold stringNumber_size in Hfit. lia.
Qed.

(** X2. A dispatch is defined for every widget whose frame fits the buffer
    (an address with the string payload of a Fire widget, or with the three
    bytes that OFF or the number of a fader can take) and, for a fader, whose
    scalar lies in the unit interval. It never writes a pin and never
    resumes or suspends a task; its only local acknowledgement is one flash
    on the indicator pin of the widget, started exactly when [do_xRemote] is
    off. *)
Theorem dispatch_flashes_only_one_way (past_midiSpacer past_midiFooter : string)
    (xr : bool) (w : OSCWidget) :
  (kindOf w = Fader ->
   valid_binary 24 128 (oscPayload_f w) = true
   /\ SFleb (oscPayload_f w) f32_one = true) ->
  (String.length (oscAddress w)
   + match kindOf w with
     | Fire => String.length (oscPayload_s w)
     | _ => 3
     end
   + String.length (c_str (midiSpacer ++ past_midiSpacer))
   + String.length (c_str (midiFooter ++ past_midiFooter)) + 2
   <= bigMidiCommand_size)%nat ->
  exists (w1 : OSCWidget) (effs : list Effect),
    dispatch past_midiSpacer past_midiFooter xr w = Some (w1, effs)
    /\ filter isLedFlash effs = (if xr then [] else [LedFlash (ledPin w)])
    /\ existsb isDigitalWrite effs = false
    /\ existsb isTaskControl effs = false.
Proof.
  unfold kindOf. intros Hfad Hfit.
  destruct (isOscToggle w) eqn:Ht.
  - pose proof (toggle_dispatch_closed past_midiSpacer past_midiFooter xr w Ht)
      as Hd. cbv zeta in Hd.
    destruct (oscState w <? 1);
      match type of Hd with context [(?a <=? ?b)%nat] =>
        destruct (Nat.leb_spec a b) as [_|Hbad];
        [|exfalso; cbn [String.length] in Hbad; lia]
      end;
      eexists; eexists; (split; [exact Hd|]); destruct xr; repeat split.
  - destruct (f32_ge0 (oscPayload_f w)) eqn:Hf.
    + destruct (Hfad eq_refl) as [Hv H1].
      destruct (faderText_unit_interval _ Hv Hf H1) as (n & Htext & Hlen).
      unfold dispatch, composeMessage. rewrite Ht, Hf, Htext.
      cbn [oscAddress set_oscPayload_s oscPayload_s].
      rewrite midiBuildCommand_len.
      match goal with |- context [(?a <=? ?b)%nat] =>
        destruct (Nat.leb_spec a b) as [_|Hbad]; [|exfalso; lia]
      end.
      eexists; eexists; split; [reflexivity|].
      cbn [ledPin set_oscPayload_s].
      destruct (wantsProbe xr _), xr; repeat split.
    + unfold dispatch, composeMessage. rewrite Ht, Hf.
      rewrite midiBuildCommand_len.
      match goal with |- context [(?a <=? ?b)%nat] =>
        destruct (Nat.leb_spec a b) as [_|Hbad]; [|exfalso; lia]
      end.
      eexists; eexists; split; [reflexivity|].
      destruct (wantsProbe xr w), xr; repeat split.
Qed.

(** * The configured sketch

    The statements above at concrete inputs, with an OSC library whose
    [fullMatch] compares the two addresses, and a NUL right after
    [midiSpacer] and after [midiFooter]. *)

(** The dispatch of "Button F", a Toggle in state 0, with [do_xRemote] set. *)
Lemma Button_F_dispatch :
  dispatch "" "" true widget_Button_F
  = Some (Button_F_on,
          [UdpSend "/config/mute/6" [OscInt 1]; UdpSend "/config/mute/6" [];
           SendSysEx (String "240" "/config/mute/6 ON" ++ midiFooter)%string;
           SerialPrintMillis; SerialPrintWidget Button_F_on]).
Proof. vm_compute. reflexivity. Qed.

(** The dispatch of the example fader, scalar 0.75. *)
Lemma Example_fader_dispatch :
  dispatch "" "" true widget_Example_fader
  = Some (set_oscPayload_s "95" widget_Example_fader,
          [UdpSend "/ch/02/mix/09/level" [OscFloat f32_three_quarters];
           UdpSend "/ch/02/mix/09/level" [];
           SendSysEx (String "240" "/ch/02/mix/09/level 95" ++ midiFooter)%string;
           SerialPrintMillis;
           SerialPrintWidget (set_oscPayload_s "95" widget_Example_fader)]).
Proof. vm_compute. reflexivity. Qed.

(** C1, as stated, fails: the short-press action of "Button A" is
    dispatched by the poll that sees the press edge, and the release edge
    half a second later dispatches nothing. *)
Lemma short_press_not_on_release :
  actionTrigger widget_Button_A = action_PRESS
  /\ firedAction (press_edge 1000) widget_Button_A = Some action_PRESS
  /\ firedAction (release_edge 1500)
       (fst (buttonAction (press_edge 1000) widget_Button_A)) = None.
Proof. repeat split. Qed.

Lemma short_press_fires_on_press_edge_witness :
  actionTrigger widget_Button_A = action_PRESS
  /\ firedAction (press_edge 1000) widget_Button_A = Some action_PRESS
  /\ firedAction (held 5000) (set_press 1000 widget_Button_A) = None.
Proof.
  split; [reflexivity|]. split.
  - exact (proj1 (short_press_fires_on_press_edge "" "" true (press_edge 1000)
                    widget_Button_A eq_refl)).
  - exact (proj1 (short_press_fires_on_press_edge "" "" true (held 5000)
                    (set_press 1000 widget_Button_A) eq_refl)).
Defined.

Lemma long_press_once_per_hold_witness :
  actionTrigger widget_Bttn_A_long = action_LONG_PRESS
  /\ firedDuring (hold 1000 [2000; 4500; 5000] 6000) widget_Bttn_A_long
     = [action_LONG_PRESS].
Proof.
  split; [reflexivity|].
  exact (proj1 (long_press_once_per_hold "" "" widget_Bttn_A_long 1000 6000
                  [2000; 4500; 5000] eq_refl)).
Defined.

(** C3, as stated, fails: the mode switch resumes the inbound task, not
    the poll task, and the poll task has lowered [do_Refresh] when it has
    sent nothing but the renewal. *)
Lemma mode_switch_leaves_poll_task :
  let r := pollModeButton (release_edge 5000) (mkGlobals false false myWidgets) in
  do_xRemote (fst r) = true /\ do_Refresh (fst r) = true
  /\ In (TaskResume UDPLoop) (snd r)
  /\ ~ In (TaskResume PokeOSCLoop) (snd r)
  /\ do_Refresh (fst (fst (pokeRenew (fst r)))) = false
  /\ filter isUdpSend (snd (fst (pokeRenew (fst r)))) = [UdpSend "/xremote" []].
Proof.
  cbv zeta. repeat split.
  - now left.
  - cbn. intuition discriminate.
Qed.

Lemma dispatch_probe_and_sysex_witness :
  dispatch "" "" true widget_Button_F
  = Some (Button_F_on,
          [UdpSend "/config/mute/6" [OscInt 1]; UdpSend "/config/mute/6" [];
           SendSysEx (String "240" "/config/mute/6 ON" ++ midiFooter)%string;
           SerialPrintMillis; SerialPrintWidget Button_F_on])
  /\ (true && match kindOf widget_Button_F with Fire => false | _ => true end = true
      <-> true = true
          /\ (kindOf widget_Button_F = Toggle \/ kindOf widget_Button_F = Fader)).
Proof.
  split; [exact Button_F_dispatch|].
  exact (proj1 (dispatch_probe_and_sysex "" "" true widget_Button_F _ _
                  Button_F_dispatch)).
Defined.

Lemma inbound_int_sets_toggle_witness :
  String.eqb "/config/mute/6" (oscAddress widget_Button_F) = true
  /\ isOscToggle widget_Button_F = true
  /\ reconcile String.eqb (mkMsg "/config/mute/6" [OscInt 1]) widget_Button_F
     = (set_oscState 1 widget_Button_F,
        [SerialPrint "MATCHES "; SerialPrint "Button F";
         DigitalWrite 5 LED_PIN_ON; SerialPrint CRLF],
        true).
Proof.
  split; [reflexivity|]. split; [reflexivity|].
  exact (proj1 (inbound_int_sets_toggle String.eqb
                  (mkMsg "/config/mute/6" [OscInt 1]) widget_Button_F 1
                  eq_refl eq_refl eq_refl)).
Defined.

Lemma toggle_dispatch_flips_witness :
  isOscToggle widget_Button_F = true
  /\ oscState widget_Button_F = 0
  /\ exists (w1 : OSCWidget) (effs : list Effect),
       dispatch "" "" true widget_Button_F = Some (w1, effs)
       /\ oscState w1 = 1
       /\ oscPayload_s w1 = "ON"
       /\ (exists rest, effs = UdpSend "/config/mute/6" [OscInt 1] :: rest)
       /\ exists (w2 : OSCWidget) (effs2 : list Effect),
            dispatch "" "" true w1 = Some (w2, effs2) /\ oscState w2 = 0.
Proof.
  split; [reflexivity|]. split; [reflexivity|].
  destruct (toggle_dispatch_flips "" "" true widget_Button_F eq_refl
              (or_introl eq_refl) ltac:(vm_compute; lia))
    as (w1 & effs & Hd & Hs & Ht & (rest & Hr) & _ & H2).
  exists w1, effs. split; [exact Hd|]. split; [exact Hs|].
  split; [rewrite Ht, Hs; reflexivity|].
  split; [exists rest; rewrite Hr, Hs; reflexivity|]. exact (H2 true).
Defined.

Lemma fader_payload_rounds_witness :
  valid_binary 24 128 f32_three_quarters = true
  /\ SFleb (S754_zero false) f32_three_quarters = true
  /\ SFleb f32_three_quarters f32_one = true
  /\ faderText f32_three_quarters
     = Some (itoa (spec_round
                     (SF2Q (f32_mul f32_three_quarters (f32_of_int 127)))))
  /\ oscPayload_s (set_oscPayload_s "95" widget_Example_fader)
     = itoa (spec_round (SF2Q (f32_mul f32_three_quarters (f32_of_int 127)))).
Proof.
  split; [reflexivity|]. split; [reflexivity|]. split; [reflexivity|].
  destruct (fader_payload_rounds "" "" f32_three_quarters eq_refl eq_refl eq_refl)
    as (_ & _ & H & Hd & _).
  split; [exact H|].
  exact (proj1 (Hd true widget_Example_fader _ _ eq_refl eq_refl
                  Example_fader_dispatch)).
Defined.

(** C7, as stated with the product of real numbers, fails: for the binary32
    value [v = 2113665 / 2^29], just below [0.5 / 127], the real product
    [v * 127] is below one half and rounds to 0, but the single-precision
    product is one half exactly and the sketch frames the text 1. *)
Lemma fader_near_tie_rounds_up :
  valid_binary 24 128 f32_near_tie = true
  /\ SFleb (S754_zero false) f32_near_tie = true
  /\ SFleb f32_near_tie f32_one = true
  /\ (SF2Q f32_near_tie == Qmake 2113665 536870912)%Q
  /\ spec_round (SF2Q f32_near_tie * inject_Z 127) = 0
  /\ (SF2Q (f32_mul f32_near_tie (f32_of_int 127)) == Qmake 1 2)%Q
  /\ faderText f32_near_tie = Some "1"
  /\ faderText f32_near_tie
     <> Some (itoa (spec_round (SF2Q f32_near_tie * inject_Z 127))).
Proof. repeat split. vm_compute. discriminate. Qed.

Lemma unmatched_message_dropped_witness :
  forallb (fun w => negb (String.eqb "/ch/01/mix/fader" (oscAddress w)))
    (widgets initialGlobals) = true
  /\ handleDatagram String.eqb
       (Received datagram_other_fader (mkMsg "/ch/01/mix/fader" [OscFloat f32_one]))
       myWidgets 0
     = (myWidgets,
        [SerialPrintMillis; SerialPrintInt 28; SerialPrint " bytes received: ";
         SerialDump datagram_other_fader; SerialPrint " --> ";
         SerialPrint "NO MATCH"; SerialPrint CRLF],
        0).
Proof.
  split; [reflexivity|].
  exact (proj1 (unmatched_message_dropped String.eqb datagram_other_fader
                  (mkMsg "/ch/01/mix/fader" [OscFloat f32_one]) 0
                  (mkUdpLocals false 0 0) initialGlobals eq_refl)).
Defined.

(** C10, as stated, fails: a float arriving for the Toggle "Button F" does
    not fit its kind, and yet a flash is started on its indicator pin. *)
Lemma float_for_toggle_flashes :
  kindOf widget_Button_F = Toggle
  /\ String.eqb "/config/mute/6" (oscAddress widget_Button_F) = true
  /\ In (LedFlash (ledPin widget_Button_F))
       (snd (fst (reconcile String.eqb
                    (mkMsg "/config/mute/6" [OscFloat f32_one])
                    widget_Button_F))).
Proof. repeat split. cbn. tauto. Qed.

Lemma mismatched_argument_effects_witness :
  String.eqb "/load" (oscAddress widget_Button_A) = true
  /\ reconcile String.eqb (mkMsg "/load" [OscInt 13]) widget_Button_A
     = (widget_Button_A,
        [SerialPrint "MATCHES "; SerialPrint "Button A"; SerialPrint CRLF],
        true).
Proof.
  split; [reflexivity|].
  destruct (mismatched_argument_effects String.eqb (mkMsg "/load" [OscInt 13])
              widget_Button_A eq_refl) as (_ & H & _).
  exact (H (or_introl (conj eq_refl eq_refl))).
Defined.

(** C9. The frame built for "Button A", address [/load] and payload
    [snippet]: the intended frame has 19 bytes and fits the buffer, but
    [strcat] stops at the NUL that is the second byte of [midiHeader], so the
    frame built keeps one byte of the preamble and has 15 bytes. *)
Theorem midiBuildCommand_truncates_preamble :
  c_str midiHeader = String "240" EmptyString
  /\ String.length (intendedFrame "/load" "snippet") = 19%nat
  /\ midiBuildCommand "" "" "/load" "snippet"
     = Some (String "240" "/load snippet" ++ midiFooter)%string
  /\ midiBuildCommand "" "" "/load" "snippet"
     <> Some (intendedFrame "/load" "snippet").
Proof.
  repeat split. vm_compute. discriminate.
Qed.

(** ** The further properties at concrete inputs *)

Lemma fire_dispatch_as_configured_witness :
  kindOf widget_Button_A = Fire
  /\ dispatch "" "" false widget_Button_A
     = Some (widget_Button_A,
             [UdpSend "/load" [OscString "snippet"; OscInt 13];
              SendSysEx (String "240" "/load snippet" ++ midiFooter)%string;
              LedFlash 13; SerialPrintMillis; SerialPrintWidget widget_Button_A]).
Proof.
  split; [reflexivity|].
  exact (fire_dispatch_as_configured "" "" false widget_Button_A eq_refl).
Defined.

Lemma dispatch_flashes_only_one_way_witness :
  kindOf widget_Example_fader = Fader
  /\ valid_binary 24 128 (oscPayload_f widget_Example_fader) = true
  /\ SFleb (oscPayload_f widget_Example_fader) f32_one = true
  /\ exists (w1 : OSCWidget) (effs : list Effect),
       dispatch "" "" false widget_Example_fader = Some (w1, effs)
       /\ filter isLedFlash effs = [LedFlash 23]
       /\ existsb isDigitalWrite effs = false.
Proof.
  split; [reflexivity|]. split; [reflexivity|]. split; [reflexivity|].
  destruct (dispatch_flashes_only_one_way "" "" false widget_Example_fader
              (fun _ => conj eq_refl eq_refl) ltac:(vm_compute; lia))
    as (w1 & effs & Hd & Hf & Hw & _).
  exists w1, effs. split; [exact Hd|]. split; [exact Hf|exact Hw].
Defined.

Lemma dispatch_changes_state_and_text_only_witness :
  Button_F_on
  = set_oscPayload_s (oscPayload_s Button_F_on)
      (set_oscState (oscState Button_F_on) widget_Button_F)
  /\ kindOf Button_F_on = kindOf widget_Button_F.
Proof.
  destruct (dispatch_changes_state_and_text_only "" "" true widget_Button_F _ _
              Button_F_dispatch) as (H1 & H2 & _).
  split; [exact H1|exact H2].
Defined.

Lemma toggle_dispatch_normalises_witness :
  isOscToggle (set_oscState 5 widget_Button_F) = true
  /\ dispatch "" "" true (set_oscState 5 widget_Button_F)
     = Some (set_oscPayload_s "OFF" widget_Button_F,
             [UdpSend "/config/mute/6" [OscInt 0]; UdpSend "/config/mute/6" [];
              SendSysEx (String "240" "/config/mute/6 OFF" ++ midiFooter)%string;
              SerialPrintMillis;
              SerialPrintWidget (set_oscPayload_s "OFF" widget_Button_F)])
  /\ dispatch "" "" false (set_oscState (-3) widget_Button_F)
     = Some (Button_F_on,
             [UdpSend "/config/mute/6" [OscInt 1];
              SendSysEx (String "240" "/config/mute/6 ON" ++ midiFooter)%string;
              LedFlash 5; SerialPrintMillis; SerialPrintWidget Button_F_on]).
Proof.
  split; [reflexivity|]. split.
  - exact (proj2 (proj2 (toggle_dispatch_normalises "" "" true
                           (set_oscState 5 widget_Button_F) eq_refl))).
  - exact (proj2 (proj2 (toggle_dispatch_normalises "" "" false
                           (set_oscState (-3) widget_Button_F) eq_refl))).
Defined.

Lemma fader_and_fire_dispatch_repeatable_witness :
  isOscToggle widget_Example_fader = false
  /\ dispatch "" "" true (set_oscPayload_s "95" widget_Example_fader)
     = Some (set_oscPayload_s "95" widget_Example_fader,
             [UdpSend "/ch/02/mix/09/level" [OscFloat f32_three_quarters];
              UdpSend "/ch/02/mix/09/level" [];
              SendSysEx (String "240" "/ch/02/mix/09/level 95" ++ midiFooter)%string;
              SerialPrintMillis;
              SerialPrintWidget (set_oscPayload_s "95" widget_Example_fader)]).
Proof.
  split; [reflexivity|].
  exact (fader_and_fire_dispatch_repeatable "" "" true widget_Example_fader _ _
           eq_refl Example_fader_dispatch).
Defined.

(** The example line of the sketch as it is written there, with
    [action_NOTHING]. *)
Lemma disabled_trigger_never_dispatches_witness :
  actionTrigger (newWidget "Example" 35 23 action_NOTHING false false
                   "/ch/02/mix/09/level" "" (-1) f32_three_quarters)
  = action_NOTHING
  /\ firedDuring (hold 1000 [2000; 4500] 6000)
       (newWidget "Example" 35 23 action_NOTHING false false
          "/ch/02/mix/09/level" "" (-1) f32_three_quarters) = [].
Proof.
  split; [reflexivity|].
  refine (proj1 (disabled_trigger_never_dispatches "" "" true
                   (hold 1000 [2000; 4500] 6000)
                   (newWidget "Example" 35 23 action_NOTHING false false
                      "/ch/02/mix/09/level" "" (-1) f32_three_quarters) _ _));
    vm_compute; discriminate.
Defined.

Lemma short_press_once_per_hold_witness :
  firedDuring (hold 1000 [2000; 4500] 6000) widget_Button_A = [action_PRESS]
  /\ firedDuring (hold 1000 [2000; 4500] 6000) widget_Button_A
     ++ firedDuring (hold 1000 [2000; 4500] 6000) widget_Bttn_A_long
     = [action_PRESS; action_LONG_PRESS].
Proof.
  exact (short_press_once_per_hold widget_Button_A widget_Bttn_A_long 1000 6000
           [2000; 4500] eq_refl eq_refl).
Defined.

Lemma no_press_edge_no_action_witness :
  wasPressed widget_Bttn_A_long = false
  /\ firedDuring [idle 10; release_edge 20; held 5000; idle 5010]
       widget_Bttn_A_long = [].
Proof.
  split; [reflexivity|].
  exact (no_press_edge_no_action [idle 10; release_edge 20; held 5000; idle 5010]
           widget_Bttn_A_long eq_refl eq_refl).
Defined.

Lemma elapsed_across_rollover_witness :
  ulong_sub ((4294967000 + 3500) mod ulong_modulus) 4294967000 = 3500
  /\ exceeds 4294967000 3204 = true.
Proof.
  refine (elapsed_across_rollover 4294967000 3500 _ _);
    vm_compute; split; congruence.
Defined.

Lemma idle_pass_is_silent_witness :
  taskButtonsLoop_pass "" "" (idle 5000)
    (map idle [5000; 5000; 5000; 5000; 5000; 5000; 5000]) initialGlobals
  = Some (initialGlobals, []).
Proof.
  exact (idle_pass_is_silent "" "" (idle 5000)
           (map idle [5000; 5000; 5000; 5000; 5000; 5000; 5000]) initialGlobals
           eq_refl eq_refl eq_refl).
Defined.


Lemma inbound_task_touches_matching_pins_only_witness :
  In (DigitalWrite 5 LED_PIN_ON)
     (snd (taskUDPLoop_pass String.eqb true 0
             (Received "" (mkMsg "/config/mute/6" [OscInt 1]))
             (mkUdpLocals false 0 0) initialGlobals))
  /\ (isQuiet (DigitalWrite 5 LED_PIN_ON) = true
      \/ DigitalWrite 5 LED_PIN_ON = TaskSuspend UDPLoop
      \/ exists w : OSCWidget,
           In w (widgets initialGlobals)
           /\ (DigitalWrite 5 LED_PIN_ON = LedFlash (ledPin w)
               \/ exists v : PinLevel,
                    DigitalWrite 5 LED_PIN_ON = DigitalWrite (ledPin w) v)
           /\ exists (bytes : string) (msg : OSCMessage),
                Received "" (mkMsg "/config/mute/6" [OscInt 1])
                = Received bytes msg
                /\ String.eqb (msgAddress msg) (oscAddress w) = true).
Proof.
  assert (H : In (DigitalWrite 5 LED_PIN_ON)
                (snd (taskUDPLoop_pass String.eqb true 0
                        (Received "" (mkMsg "/config/mute/6" [OscInt 1]))
                        (mkUdpLocals false 0 0) initialGlobals)))
    by (vm_compute; auto 20).
  split; [exact H|].
  exact (inbound_task_touches_matching_pins_only String.eqb true 0
           (Received "" (mkMsg "/config/mute/6" [OscInt 1]))
           (mkUdpLocals false 0 0) initialGlobals (DigitalWrite 5 LED_PIN_ON) H).
Defined.

Lemma presence_task_clears_indicators_once_witness :
  taskPokeOSCLoop_pass false false (mkGlobals false true myWidgets)
  = (mkGlobals false true myWidgets, true,
     allLedsOff myWidgets ++ [SerialPrint ("/-------" ++ BS8)%string; TaskDelay 10])
  /\ filter isDigitalWrite
       (allLedsOff myWidgets
        ++ [SerialPrint ("/-------" ++ BS8)%string; TaskDelay 10])
     = map (fun w => DigitalWrite (ledPin w) LED_PIN_OFF) myWidgets
  /\ taskPokeOSCLoop_pass false true (mkGlobals false true myWidgets)
     = (mkGlobals false true myWidgets, true, [TaskDelay 10]).
Proof.
  split; [reflexivity|].
  destruct (presence_task_clears_indicators_once false false
              (mkGlobals false true myWidgets) eq_refl eq_refl false
              _ _ _ _ _ _ eq_refl eq_refl) as (_ & _ & _ & _ & H & _).
  split; [exact H|reflexivity].
Defined.

Lemma mode_follows_switch_witness :
  toggled (press_edge 5000) = true
  /\ widgets (fst (pollModeButton (press_edge 5000) initialGlobals)) = myWidgets
  /\ do_xRemote (fst (pollModeButton (press_edge 5000) initialGlobals)) = false.
Proof.
  split; [reflexivity|].
  destruct (mode_follows_switch String.eqb (press_edge 5000) initialGlobals
              eq_refl) as (H1 & _ & H3).
  split; [exact H1|]. exact (proj1 (H3 eq_refl)).
Defined.

Lemma flash_leaves_pin_off_witness :
  pinAfter 5 ([DigitalWrite 5 LED_PIN_ON; DigitalWrite 13 LED_PIN_ON]
              ++ taskLedFlash true 5) LED_PIN_OFF = LED_PIN_OFF
  /\ pinAfter 13 ([DigitalWrite 5 LED_PIN_ON; DigitalWrite 13 LED_PIN_ON]
                  ++ taskLedFlash true 5) LED_PIN_OFF
     = pinAfter 13 [DigitalWrite 5 LED_PIN_ON; DigitalWrite 13 LED_PIN_ON]
         LED_PIN_OFF
  /\ filter (fun e => negb (isDigitalWrite e)) (taskLedFlash true 5)
     = [TaskDelay 200].
Proof.
  refine (flash_leaves_pin_off true 5 13
            [DigitalWrite 5 LED_PIN_ON; DigitalWrite 13 LED_PIN_ON]
            LED_PIN_OFF _).
  lia.
Defined.

Lemma battery_indicator_blinks_when_low_witness :
  batteryStatusLed
    (fst (taskStatusLoop_run
            [(WL_CONNECTED, 3000); (WL_CONNECTED, 2990); (WL_CONNECTED, 2985)]
            initialStatusLocals)) = LED_PIN_OFF
  /\ batteryStatusLed
       (fst (taskStatusLoop_run
               ([(WL_CONNECTED, 3000); (WL_CONNECTED, 2990); (WL_CONNECTED, 2985)]
                ++ [(WL_CONNECTED, 3034)])
               initialStatusLocals)) = LED_PIN_OFF.
Proof.
  destruct (battery_indicator_blinks_when_low
              [(WL_CONNECTED, 3000); (WL_CONNECTED, 2990); (WL_CONNECTED, 2985)]
              initialStatusLocals eq_refl) as [H1 H2].
  split; [exact H1|]. apply H2. unfold BATTERY_LOW_CUTOFF. lia.
Defined.

Lemma status_pins_follow_locals_witness :
  pinAfter PIN_FOR_WIFI_STATUS_LED
    (snd (taskStatusLoop_run [(WL_DISCONNECTED, 4000); (WL_CONNECTED, 4000)]
            initialStatusLocals)) LED_PIN_OFF
  = LED_PIN_ON.
Proof.
  refine (proj1 (status_pins_follow_locals
                   [(WL_DISCONNECTED, 4000); (WL_CONNECTED, 4000)]
                   initialStatusLocals LED_PIN_OFF _)).
  discriminate.
Defined.
